(** * ml_service: the yield-prediction service of python_service/ml_service.py

    A shallow embedding of the model lifecycle (sample generation, training,
    storage, prediction, grid optimisation) together with the properties the
    specification states about it.

    Numbers.  Python floats and NumPy float64 arrays are idealised as exact
    rationals ([Q]); rounding, overflow, NaN and infinities of IEEE arithmetic
    are outside this development.  Two rationals are compared with [==]
    ([Qeq]) wherever arithmetic is involved.

    Libraries.  NumPy, scikit-learn and joblib are not part of the repository;
    the calls the service makes are embedded by their documented behaviour
    (sections [numpy] and [sklearn] below).  The parts that are random or
    irrational (the Mersenne-Twister stream, the shuffling permutation, the
    forest construction, square roots) are parameters of the development. *)

From Stdlib Require Import QArith Qminmax Lia Lqa List Ascii.
From stdpp Require Import base gmap strings list fin_maps.

Open Scope Q_scope.

(** ** Python values the service handles *)

Abbreviation matrix := (list (list Q)).

Inductive value_error :=
| FoundEmptyArray                (* check_array: 0 samples or 0 features *)
| NFeaturesMismatch (got expected : nat)
| InconsistentSamples (nx ny : nat)
| EmptyTrainSet (n_samples : nat).

Inductive exn :=
| ValueError (e : value_error)
| KeyError (key : string)
| IndexError
| AttributeError (attr : string)
| FileNotFoundError (path : string)
| UnpicklingError.

(** A computation that may raise. *)
Definition raising (A : Type) : Type := exn + A.

Definition ret {A} (a : A) : raising A := inr a.
Definition raise {A} (e : exn) : raising A := inl e.
Definition bind {A B} (c : raising A) (k : A -> raising B) : raising B :=
  match c with inl e => inl e | inr a => k a end.

Notation "'try!' x ':=' c 'in' k" := (bind c (fun x => k))
  (at level 10, x name, c at level 100, k at level 200).

(** ** numpy *)

Module np.

(** [np.arange(0, num)] as rationals. *)
Definition arange (num : nat) : list Q :=
  map (fun i => inject_Z (Z.of_nat i)) (seq 0 num).

(** [y[-1] = v] *)
Definition set_last (y : list Q) (v : Q) : list Q :=
  <[ (length y - 1)%nat := v ]> y.

(** [np.linspace(start, stop, num)] with [endpoint=True]:
    [step = (stop - start) / (num - 1)], [y = arange(0, num) * step + start],
    and the last entry is overwritten with [stop]. *)
Definition linspace (start stop : Q) (num : nat) : list Q :=
  let div := (num - 1)%nat in
  let delta := stop - start in
  let y := arange num in
  let y :=
    if (0 <? div)%nat then
      let step := delta / inject_Z (Z.of_nat div) in
      if Qeq_bool step 0
      then map (fun v => (v / inject_Z (Z.of_nat div)) * delta) y
      else map (fun v => v * step) y
    else map (fun v => v * delta) y in
  let y := map (fun v => v + start) y in
  if (1 <? num)%nat then set_last y stop else y.

(** [np.meshgrid(x1, x2, x3, x4)] with the default [indexing='xy']: the four
    outputs have shape [(len x2, len x1, len x3, len x4)]; the first two axes
    are swapped with respect to the argument order. *)
Abbreviation tensor4 := (list (list (list (list Q)))).

Definition meshgrid (x1 x2 x3 x4 : list Q) : list tensor4 :=
  [ map (fun _ => map (fun a => map (fun _ => map (fun _ => a) x4) x3) x1) x2;
    map (fun b => map (fun _ => map (fun _ => map (fun _ => b) x4) x3) x1) x2;
    map (fun _ => map (fun _ => map (fun c => map (fun _ => c) x4) x3) x1) x2;
    map (fun _ => map (fun _ => map (fun _ => map (fun d => d) x4) x3) x1) x2 ].

(** [a.reshape(-1)] of one 4-dimensional block, in C order. *)
Definition ravel (t : tensor4) : list Q := concat (concat (concat t)).

(** [grid.reshape(4, -1)] *)
Definition reshape_4 (grid : list tensor4) : matrix := map ravel grid.

(** [m.T] for a row-major matrix: column [i] of [m] becomes row [i]. *)
Fixpoint transpose (m : matrix) : matrix :=
  match m with
  | [] => []
  | [r] => map (fun v => [v]) r
  | r :: m' => zip_with cons r (transpose m')
  end.

(** [np.argmax(y)]: index of the first occurrence of the maximum;
    raises on an empty array. *)
Fixpoint argmax_from (best : nat) (bv : Q) (i : nat) (y : list Q) : nat :=
  match y with
  | [] => best
  | v :: y' =>
      if Qle_bool v bv then argmax_from best bv (S i) y'
      else argmax_from i v (S i) y'
  end.

Definition argmax (y : list Q) : raising nat :=
  match y with
  | [] => raise (ValueError FoundEmptyArray)
  | v :: y' => ret (argmax_from 0%nat v 1%nat y')
  end.

(** [np.clip(v, lo, hi)] *)
Definition clip (v lo hi : Q) : Q := Qmin (Qmax v lo) hi.

End np.

(** ** scikit-learn *)

(** A regression tree: a leaf value, or a test [x[feature] <= threshold] with
    the subtree for each outcome. *)
Inductive tree :=
| Leaf (value : Q)
| Node (feature : nat) (threshold : Q) (left right : tree).

Record RandomForestRegressor := {
  estimators_ : list tree;
  feature_importances_ : list Q;
  n_features_in_ : nat
}.

(** The library parts that are not arithmetic on the data: the square root
    used for the standard deviation, the shuffle of
    [train_test_split(..., random_state=42)] (a function of the number of
    samples) and [RandomForestRegressor(n_estimators=100, random_state=42).fit]
    (a function of the training data, the seed being fixed). *)
Class Sklearn := {
  sqrtQ : Q -> Q;
  permutation42 : nat -> list nat;
  fit_forest42 : matrix -> list Q -> RandomForestRegressor
}.

(** A float that may be the explicit [float('nan')] of [r2_score]. *)
Inductive pyfloat := Finite (q : Q) | NaN.

Module sklearn.

Definition n_samples (X : matrix) : nat := length X.
Definition n_features (X : matrix) : nat :=
  match X with [] => 0%nat | r :: _ => length r end.

(** [check_array]: a 2-d array with at least one sample and one feature. *)
Definition check_array (X : matrix) : raising matrix :=
  if ((n_samples X =? 0) || (n_features X =? 0))%nat
  then raise (ValueError FoundEmptyArray) else ret X.

Definition sum (l : list Q) : Q := fold_right Qplus 0 l.
Definition mean (l : list Q) : Q := sum l / inject_Z (Z.of_nat (length l)).
(** population variance, [np.var] with [ddof=0] *)
Definition var (l : list Q) : Q :=
  let m := mean l in mean (map (fun x => (x - m) ^ 2) l).

Record StandardScaler := {
  mean_ : list Q;
  var_ : list Q;
  scale_ : list Q;
  scaler_n_features_in_ : nat
}.

(** [_handle_zeros_in_scale]: a constant feature gets the scale 1, so that
    dividing by it leaves the centred data as it is. *)
Definition handle_zeros_in_scale `{Sklearn} (v : Q) : Q :=
  if Qeq_bool v 0 then 1 else sqrtQ v.

Definition fit `{Sklearn} (X : matrix) : raising StandardScaler :=
  try! X := check_array X in
  let columns := np.transpose X in
  ret {| mean_ := map mean columns;
         var_ := map var columns;
         scale_ := map (fun c => handle_zeros_in_scale (var c)) columns;
         scaler_n_features_in_ := n_features X |}.

Definition transform_row (sc : StandardScaler) (row : list Q) : list Q :=
  zip_with Qdiv (zip_with Qminus row (mean_ sc)) (scale_ sc).

Definition transform (sc : StandardScaler) (X : matrix) : raising matrix :=
  try! X := check_array X in
  if (n_features X =? scaler_n_features_in_ sc)%nat
  then ret (map (transform_row sc) X)
  else raise (ValueError (NFeaturesMismatch (n_features X) (scaler_n_features_in_ sc))).

Definition fit_transform `{Sklearn} (X : matrix) : raising (StandardScaler * matrix) :=
  try! sc := fit X in
  try! Xs := transform sc X in
  ret (sc, Xs).

(** [train_test_split(X, y, test_size=0.2, random_state=42)] *)
Definition take_rows {A} (idx : list nat) (X : list A) : list A :=
  omap (fun i => X !! i) idx.

Definition train_test_split `{Sklearn} (X : matrix) (y : list Q)
  : raising (matrix * matrix * list Q * list Q) :=
  let n := n_samples X in
  if negb (n =? length y)%nat then raise (ValueError (InconsistentSamples n (length y)))
  else
    let n_test := ((n + 4) / 5)%nat in          (* ceil(0.2 * n) *)
    let n_train := (n - n_test)%nat in
    if (n_train =? 0)%nat then raise (ValueError (EmptyTrainSet n))
    else
      let perm := permutation42 n in
      let ind_test := take n_test perm in
      let ind_train := take n_train (drop n_test perm) in
      ret (take_rows ind_train X, take_rows ind_test X,
           take_rows ind_train y, take_rows ind_test y).

(** forest prediction: the mean of the trees' leaf values *)
Fixpoint tree_predict (t : tree) (x : list Q) : Q :=
  match t with
  | Leaf v => v
  | Node f thr l r =>
      if Qle_bool (nth f x 0) thr then tree_predict l x else tree_predict r x
  end.

Definition forest_predict (m : RandomForestRegressor) (x : list Q) : Q :=
  mean (map (fun t => tree_predict t x) (estimators_ m)).

Definition predict (m : RandomForestRegressor) (X : matrix) : raising (list Q) :=
  try! X := check_array X in
  if (n_features X =? n_features_in_ m)%nat
  then ret (map (forest_predict m) X)
  else raise (ValueError (NFeaturesMismatch (n_features X) (n_features_in_ m))).

(** [r2_score(y_true, y_pred)] with [force_finite=True] *)
Definition r2_score (y_true y_pred : list Q) : pyfloat :=
  if (length y_pred <? 2)%nat then NaN
  else
    let numerator := sum (zip_with (fun t p => (t - p) ^ 2) y_true y_pred) in
    let m := mean y_true in
    let denominator := sum (map (fun t => (t - m) ^ 2) y_true) in
    if Qeq_bool denominator 0
    then (if Qeq_bool numerator 0 then Finite 1 else Finite 0)
    else Finite (1 - numerator / denominator).

Definition score (m : RandomForestRegressor) (X : matrix) (y : list Q) : raising pyfloat :=
  try! y_pred := predict m X in
  ret (r2_score y y_pred).

End sklearn.

(** ** joblib and the file system *)

Inductive pyobj :=
| PyForest (m : RandomForestRegressor)
| PyScaler (s : sklearn.StandardScaler).

(** A file holds the dump of an estimator, as [train_model] writes it, or
    something joblib cannot read.  Writing is taken to succeed. *)
Inductive file := Pickle (o : pyobj) | Corrupt.

Abbreviation filesystem := (gmap string file).

Module os_path.
Definition starts_with_slash (p : string) : bool :=
  match p with String "/"%char _ => true | _ => false end.
Fixpoint ends_with_slash (p : string) : bool :=
  match p with
  | EmptyString => false
  | String "/"%char EmptyString => true
  | String _ p' => ends_with_slash p'
  end.
(** [os.path.join(a, b)] on POSIX *)
Definition join (a b : string) : string :=
  if starts_with_slash b then b
  else if (String.eqb a "" || ends_with_slash a)%bool then a +:+ b
  else a +:+ "/" +:+ b.
Definition exists_ (fs : filesystem) (p : string) : bool :=
  bool_decide (is_Some (fs !! p)).
End os_path.

Module joblib.
Definition dump (o : pyobj) (p : string) (fs : filesystem) : filesystem :=
  <[ p := Pickle o ]> fs.
Definition load (fs : filesystem) (p : string) : raising pyobj :=
  match fs !! p with
  | Some (Pickle o) => ret o
  | Some Corrupt => raise UnpicklingError
  | None => raise (FileNotFoundError p)
  end.
End joblib.

(** Attribute access on a loaded object: a method of the other class is an
    [AttributeError]. *)
Definition scaler_transform (o : pyobj) (X : matrix) : raising matrix :=
  match o with
  | PyScaler sc => sklearn.transform sc X
  | PyForest _ => raise (AttributeError "transform")
  end.

Definition model_predict (o : pyobj) (X : matrix) : raising (list Q) :=
  match o with
  | PyForest m => sklearn.predict m X
  | PyScaler _ => raise (AttributeError "predict")
  end.

Definition model_feature_importances_ (o : pyobj) : raising (list Q) :=
  match o with
  | PyForest m => ret (feature_importances_ m)
  | PyScaler _ => raise (AttributeError "feature_importances_")
  end.

(** ** numpy.random *)

(** The global generator of [numpy.random]: [np.random.seed] replaces its
    state by one that depends on the seed only; each draw returns a value and
    the next state. *)
Class NumpyRandom := {
  rng_state : Type;
  np_random_seed : Z -> rng_state;
  random_sample : rng_state -> Q * rng_state
}.

Section numpy_random.
Context `{NumpyRandom}.

(** [n] successive draws *)
Fixpoint draws (n : nat) (g : rng_state) : list Q * rng_state :=
  match n with
  | O => ([], g)
  | S n' =>
      let '(u, g1) := random_sample g in
      let '(us, g2) := draws n' g1 in
      (u :: us, g2)
  end.

(** [np.random.rand(n, m)]: an [n] by [m] array filled row by row *)
Fixpoint np_random_rand (n m : nat) (g : rng_state) : matrix * rng_state :=
  match n with
  | O => ([], g)
  | S n' =>
      let '(row, g1) := draws m g in
      let '(rows, g2) := np_random_rand n' m g1 in
      (row :: rows, g2)
  end.
End numpy_random.

(** ** The service *)

Definition MODEL_DIR : string := "models".

(** [X[:, j] = f(X[:, j])] *)
Definition set_column (j : nat) (f : Q -> Q) (X : matrix) : matrix :=
  map (alter f j) X.

(** [X[:, j]] read at one row *)
Definition col (j : nat) (row : list Q) : Q := nth j row 0.

Section generate.
Context `{NumpyRandom}.

Definition generate_sample_data (g : rng_state) : (matrix * list Q) * rng_state :=
  let g := np_random_seed 42 in
  let n_samples := 100%nat in
  let '(X, g) := np_random_rand n_samples 4 g in
  let X := set_column 0 (fun x => x * 100 + 50) X in
  let X := set_column 1 (fun x => x * 9 + 1) X in
  let X := set_column 2 (fun x => x * 1.9 + 0.1) X in
  let X := set_column 3 (fun x => x * 23 + 1) X in
  let Y := map (fun r => (0.4 * col 0 r + 0.3 * col 1 r ^ 2 + 0.2 * col 2 r
                          + 0.1 * col 3 r) / 100) X in
  let Y := map (fun y => y * 100) Y in
  let Y := map (fun y => np.clip y 0 100) Y in
  ((X, Y), g).
End generate.

Definition model_path_of (model_name : string) : string :=
  os_path.join MODEL_DIR (model_name +:+ ".joblib").
Definition scaler_path_of (model_name : string) : string :=
  os_path.join MODEL_DIR (model_name +:+ "_scaler.joblib").

Section training.
Context `{Sklearn}.

(** [train_model(X, y, model_name)]: the score, or [None] when anything
    raised; the file system as the call leaves it. *)
Definition train_model (X : matrix) (y : list Q) (model_name : string)
    (fs : filesystem) : option pyfloat * filesystem :=
  match (try! fitted := sklearn.fit_transform X in
         try! parts := sklearn.train_test_split (snd fitted) y in
         ret (fst fitted, parts)) with
  | inl _ => (None, fs)
  | inr (scaler, (X_train, X_test, y_train, y_test)) =>
      let model := fit_forest42 X_train y_train in
      let model_path := model_path_of model_name in
      let scaler_path := scaler_path_of model_name in
      let fs := joblib.dump (PyForest model) model_path fs in
      let fs := joblib.dump (PyScaler scaler) scaler_path fs in
      match sklearn.score model X_test y_test with
      | inl _ => (None, fs)
      | inr score => (Some score, fs)
      end
  end.

(** [train_model] once more, statement by statement, keeping the storage as
    each write leaves it: the storage the call finds, the storage after
    [joblib.dump(model, model_path)], and the storage after
    [joblib.dump(scaler, scaler_path)].  A request served while the training
    runs finds one of them. *)
Definition train_model_states (X : matrix) (y : list Q) (model_name : string)
    (fs : filesystem) : option pyfloat * list filesystem :=
  match (try! fitted := sklearn.fit_transform X in
         try! parts := sklearn.train_test_split (snd fitted) y in
         ret (fst fitted, parts)) with
  | inl _ => (None, [fs])
  | inr (scaler, (X_train, X_test, y_train, y_test)) =>
      let model := fit_forest42 X_train y_train in
      let model_path := model_path_of model_name in
      let scaler_path := scaler_path_of model_name in
      let fs1 := joblib.dump (PyForest model) model_path fs in
      let fs2 := joblib.dump (PyScaler scaler) scaler_path fs1 in
      match sklearn.score model X_test y_test with
      | inl _ => (None, [fs; fs1; fs2])
      | inr score => (Some score, [fs; fs1; fs2])
      end
  end.
End training.

(** [load_model(model_name)] *)
Definition load_model (fs : filesystem) (model_name : string)
    : option pyobj * option pyobj :=
  let model_path := model_path_of model_name in
  let scaler_path := scaler_path_of model_name in
  if negb (os_path.exists_ fs model_path && os_path.exists_ fs scaler_path)
  then (None, None)
  else
    match (try! model := joblib.load fs model_path in
           try! scaler := joblib.load fs scaler_path in
           ret (model, scaler)) with
    | inl _ => (None, None)
    | inr (model, scaler) => (Some model, Some scaler)
    end.

(** *** Responses *)

Inductive message :=
| Text (s : string)
| Str (e : exn).                     (* [str(e)] of a caught exception *)

Inductive response :=
| TrainOk (score : pyfloat)
| PredictOk (prediction : Q) (feature_importance : list (string * Q))
| OptimizeOk (optimal_parameters : list (string * Q)) (predicted_yield : Q)
| Failure (status : Z) (msg : message).

Definition success (r : response) : bool :=
  match r with Failure _ _ => false | _ => true end.

Definition handler (c : raising response) : response :=
  match c with
  | inl e => Failure 500 (Str e)
  | inr r => r
  end.

Definition feature_names : list string := ["温度"; "圧力"; "触媒量"; "反応時間"].

(** [l[i]] *)
Definition getitem {A} (l : list A) (i : nat) : raising A :=
  match l !! i with Some a => ret a | None => raise IndexError end.

(** [d[k]] *)
Definition getkey {A} (d : gmap string A) (k : string) : raising A :=
  match d !! k with Some a => ret a | None => raise (KeyError k) end.

Definition DEFAULT_MODEL : string := "yield_model".

(** [POST /api/ml/predict].  [data] is the ['features'] entry of the JSON
    body, [None] when the body is empty or has no such entry. *)
Definition predict (fs : filesystem) (data : option (list Q)) : response :=
  match data with
  | None => Failure 400 (Text "No features provided")
  | Some data_features =>
      match load_model fs DEFAULT_MODEL with
      | (Some model, Some scaler) =>
          handler (
            let features := [data_features] in
            try! features_scaled := scaler_transform scaler features in
            try! y := model_predict model features_scaled in
            try! prediction := getitem y 0 in
            try! importances := model_feature_importances_ model in
            let feature_importance := zip feature_names importances in
            ret (PredictOk prediction feature_importance))
      | _ => Failure 404 (Text "Model not found. Please train the model first.")
      end
  end.

(** The grid of [optimize]: the four [linspace]s, [meshgrid], [reshape(4, -1)]
    and the transposition. *)
Definition grid_points : nat := 10.

Definition grid_axes (ranges : gmap string (list Q)) : raising (list (list Q)) :=
  try! r := getkey ranges "温度" in try! t0 := getitem r 0 in
  try! r := getkey ranges "温度" in try! t1 := getitem r 1 in
  try! r := getkey ranges "圧力" in try! p0 := getitem r 0 in
  try! r := getkey ranges "圧力" in try! p1 := getitem r 1 in
  try! r := getkey ranges "触媒量" in try! c0 := getitem r 0 in
  try! r := getkey ranges "触媒量" in try! c1 := getitem r 1 in
  try! r := getkey ranges "反応時間" in try! r0 := getitem r 0 in
  try! r := getkey ranges "反応時間" in try! r1 := getitem r 1 in
  ret [ np.linspace t0 t1 grid_points;
        np.linspace p0 p1 grid_points;
        np.linspace c0 c1 grid_points;
        np.linspace r0 r1 grid_points ].

Definition X_grid_of (axes : list (list Q)) : matrix :=
  match axes with
  | [x1; x2; x3; x4] =>
      let grid := np.meshgrid x1 x2 x3 x4 in
      np.transpose (np.reshape_4 grid)
  | _ => []
  end.

(** [X_grid[i, j]] *)
Definition getitem2 (X : matrix) (i j : nat) : raising Q :=
  try! row := getitem X i in getitem row j.

(** [POST /api/ml/optimize].  [data] is the ['ranges'] entry of the JSON
    body, [None] when the body is empty or has no such entry. *)
Definition optimize (fs : filesystem) (data : option (gmap string (list Q))) : response :=
  match data with
  | None => Failure 400 (Text "No parameter ranges provided")
  | Some ranges =>
      match load_model fs DEFAULT_MODEL with
      | (Some model, Some scaler) =>
          handler (
            try! axes := grid_axes ranges in
            let X_grid := X_grid_of axes in
            try! X_grid_scaled := scaler_transform scaler X_grid in
            try! y_pred := model_predict model X_grid_scaled in
            try! best_idx := np.argmax y_pred in
            try! b0 := getitem2 X_grid best_idx 0 in
            try! b1 := getitem2 X_grid best_idx 1 in
            try! b2 := getitem2 X_grid best_idx 2 in
            try! b3 := getitem2 X_grid best_idx 3 in
            let best_params :=
              [("温度", b0); ("圧力", b1); ("触媒量", b2); ("反応時間", b3)] in
            try! best_prediction := getitem y_pred best_idx in
            ret (OptimizeOk best_params best_prediction))
      | _ => Failure 404 (Text "Model not found. Please train the model first.")
      end
  end.

Section train_api.
Context `{Sklearn} `{NumpyRandom}.

(** [POST /api/ml/train] *)
Definition train (g : rng_state) (fs : filesystem)
    : response * (rng_state * filesystem) :=
  let '((X, y), g) := generate_sample_data g in
  let '(score, fs) := train_model X y DEFAULT_MODEL fs in
  match score with
  | Some score => (TrainOk score, (g, fs))
  | None => (Failure 500 (Text "训练失败"), (g, fs))
  end.

(** The start of the service ([if __name__ == '__main__']): when the file
    of the default regressor is not there, sample data are generated and a
    model is trained before requests are served; the outcome of that
    training is not looked at. *)
Definition startup (g : rng_state) (fs : filesystem) : rng_state * filesystem :=
  if negb (os_path.exists_ fs (os_path.join MODEL_DIR "yield_model.joblib"))
  then
    let '((X, y), g) := generate_sample_data g in
    let '(_, fs) := train_model X y DEFAULT_MODEL fs in
    (g, fs)
  else (g, fs).
End train_api.

(** *** Failure kinds

    The service defines no error classes: what tells failures apart is the
    response.  Status 404 is the model-not-found answer, status 400 the
    rejection of a request, and status 500 the catch-all of
    [except Exception], which carries [str(e)] of whatever was raised. *)
Inductive error_kind :=
| ModelNotFoundError
| InvalidInputError
| InternalError.

Definition error_kind_of (r : response) : option error_kind :=
  match r with
  | Failure 404 _ => Some ModelNotFoundError
  | Failure 400 _ => Some InvalidInputError
  | Failure _ _ => Some InternalError
  | _ => None
  end.

(** ** Notions used in the statements *)

(** What [optimize] computes at a grid point: the forest on the scaled row. *)
Definition predicted_yield_at (m : RandomForestRegressor)
    (sc : sklearn.StandardScaler) (row : list Q) : Q :=
  sklearn.forest_predict m (sklearn.transform_row sc row).

(** The enumeration the specification names: temperature outer-most, then
    pressure, catalyst amount, and reaction time inner-most. *)
Definition spec_enumeration (axes : list (list Q)) : matrix :=
  match axes with
  | [x1; x2; x3; x4] =>
      flat_map (fun t => flat_map (fun p => flat_map (fun c =>
        map (fun r => [t; p; c; r]) x4) x3) x2) x1
  | _ => []
  end.

(** The enumeration with pressure outer-most, then temperature, catalyst
    amount, and reaction time inner-most; [X_grid_of_enumeration] below shows
    that the grid of the code is this one. *)
Definition code_enumeration (axes : list (list Q)) : matrix :=
  match axes with
  | [x1; x2; x3; x4] =>
      flat_map (fun p => flat_map (fun t => flat_map (fun c =>
        map (fun r => [t; p; c; r]) x4) x3) x1) x2
  | _ => []
  end.

(** First candidate of maximal predicted yield in an enumeration. *)
Definition first_best (f : list Q -> Q) (candidates : matrix) : option (list Q) :=
  match np.argmax (map f candidates) with
  | inr i => candidates !! i
  | inl _ => None
  end.

(** A request that gives each of the four parameters a pair [lo; hi]. *)
Record ranges_of (ranges : gmap string (list Q))
    (t0 t1 p0 p1 c0 c1 r0 r1 : Q) : Prop := {
  range_temperature : ranges !! "温度" = Some [t0; t1];
  range_pressure : ranges !! "圧力" = Some [p0; p1];
  range_catalyst : ranges !! "触媒量" = Some [c0; c1];
  range_time : ranges !! "反応時間" = Some [r0; r1]
}.

Definition artifacts_absent (fs : filesystem) (model_name : string) : Prop :=
  fs !! model_path_of model_name = None \/ fs !! scaler_path_of model_name = None.

(** All rows of [X] have [d] entries. *)
Definition rectangular (d : nat) (X : matrix) : Prop :=
  Forall (fun row => length row = d) X.

(** A forest and a scaler for rows of [d] features, as training on
    [d]-column data leaves them. *)
Record fitted_pair (d : nat) (m : RandomForestRegressor)
    (sc : sklearn.StandardScaler) : Prop := {
  forest_features : n_features_in_ m = d;
  scaler_features : sklearn.scaler_n_features_in_ sc = d;
  scaler_mean_length : length (sklearn.mean_ sc) = d;
  scaler_scale_length : length (sklearn.scale_ sc) = d
}.

(** The default model is stored, complete, and is for four features. *)
Definition model_loaded (fs : filesystem) (m : RandomForestRegressor)
    (sc : sklearn.StandardScaler) : Prop :=
  load_model fs DEFAULT_MODEL = (Some (PyForest m), Some (PyScaler sc))
  /\ fitted_pair 4 m sc.

(** The specification's linear spacing: [grid_points] values,
    [lower + i * (upper - lower) / (grid_points - 1)] at place [i], running
    from [lower] to [upper] inclusive. *)
Definition evenly_spaced (lower upper : Q) (l : list Q) : Prop :=
  length l = grid_points /\
  (forall i v, l !! i = Some v ->
     v == lower + inject_Z (Z.of_nat i)
                  * ((upper - lower) / inject_Z (Z.of_nat (grid_points - 1)))) /\
  (exists v, l !! 0%nat = Some v /\ v == lower) /\
  l !! (grid_points - 1)%nat = Some upper.


(** What the development needs to know of the library parameters: the
    shuffle is a permutation of the sample indices, and a fitted forest
    expects as many features as its training data have. *)
Class SklearnLaws `{Sklearn} : Prop := {
  permutation42_perm : forall n, permutation42 n ≡ₚ seq 0 n;
  fit_forest42_features :
    forall X y, n_features_in_ (fit_forest42 X y) = sklearn.n_features X
}.

(** [w], at index [b], is the first maximum of [l]. *)
Definition first_max_at (l : list Q) (b : nat) (w : Q) : Prop :=
  l !! b = Some w /\
  (forall k v, l !! k = Some v -> v <= w) /\
  (forall k v, (k < b)%nat -> l !! k = Some v -> v < w).

(** The candidates as tuples, in the order of the code. *)
Definition tuples (T P C R : list Q) : list (Q * Q * Q * Q) :=
  flat_map (fun p => flat_map (fun t => flat_map (fun c =>
    map (fun r => (t, p, c, r)) R) C) T) P.

Definition row_of (x : Q * Q * Q * Q) : list Q :=
  let '(t, p, c, r) := x in [t; p; c; r].

(** ** Small instances, for running the definitions *)

Module Examples.

(** A linear congruential generator in place of the Mersenne Twister. *)
Definition lcg_modulus : Z := 2147483648.
Definition lcg_next (g : Z) : Z := ((1103515245 * g + 12345) mod lcg_modulus)%Z.

Definition lcg : NumpyRandom := {|
  rng_state := Z;
  np_random_seed := fun s => (s mod lcg_modulus)%Z;
  random_sample := fun g => (Qmake (lcg_next g) 2147483648%positive, lcg_next g)
|}.

(** Square root to three decimals, the identity shuffle, and a forest of one
    leaf that predicts the mean target. *)
Definition sqrt_3dp (q : Q) : Q :=
  Qmake (Z.sqrt (Qnum q * Zpos (Qden q) * 1000000)%Z) (Qden q * 1000)%positive.

Definition stub_sklearn : Sklearn := {|
  sqrtQ := sqrt_3dp;
  permutation42 := fun n => seq 0 n;
  fit_forest42 := fun X y =>
    {| estimators_ := [Leaf (sklearn.mean y)];
       feature_importances_ := map (fun _ => 0) (seq 0 (sklearn.n_features X));
       n_features_in_ := sklearn.n_features X |}
|}.

(** A scaler that leaves four-feature rows as they are. *)
Definition unit_scaler : sklearn.StandardScaler :=
  {| sklearn.mean_ := [0; 0; 0; 0];
     sklearn.var_ := [1; 1; 1; 1];
     sklearn.scale_ := [1; 1; 1; 1];
     sklearn.scaler_n_features_in_ := 4 |}.

(** One tree that answers 1 exactly when one of temperature and pressure is
    at most 1/2 and the other is not. *)
Definition xor_tree : tree :=
  Node 0 (1 # 2)
    (Node 1 (1 # 2) (Leaf 0) (Leaf 1))
    (Node 1 (1 # 2) (Leaf 1) (Leaf 0)).

Definition xor_forest : RandomForestRegressor :=
  {| estimators_ := [xor_tree];
     feature_importances_ := [1 # 2; 1 # 2; 0; 0];
     n_features_in_ := 4 |}.

(** A second pair, standing for the outcome of a later training run. *)
Definition constant_forest : RandomForestRegressor :=
  {| estimators_ := [Leaf 5];
     feature_importances_ := [0; 0; 0; 0];
     n_features_in_ := 4 |}.

Definition centred_scaler : sklearn.StandardScaler :=
  {| sklearn.mean_ := [100; 5; 1; 12];
     sklearn.var_ := [1; 1; 1; 1];
     sklearn.scale_ := [1; 1; 1; 1];
     sklearn.scaler_n_features_in_ := 4 |}.

Definition store (m : RandomForestRegressor) (sc : sklearn.StandardScaler)
    : filesystem :=
  joblib.dump (PyScaler sc) (scaler_path_of DEFAULT_MODEL)
    (joblib.dump (PyForest m) (model_path_of DEFAULT_MODEL) ∅).

Definition fs_xor : filesystem := store xor_forest unit_scaler.

Definition request (t p c r : list Q) : gmap string (list Q) :=
  <[ "温度" := t ]> (<[ "圧力" := p ]> (<[ "触媒量" := c ]>
    (<[ "反応時間" := r ]> ∅))).

Definition ranges_0_9 : gmap string (list Q) :=
  request [0; 9] [0; 9] [0; 9] [0; 9].

(** Six samples of four features, and their targets. *)
Definition six_samples : matrix :=
  [[1; 2; 3; 4]; [1; 3; 4; 5]; [2; 2; 3; 4];
   [2; 3; 4; 5]; [3; 2; 3; 4]; [3; 3; 4; 5]].

Definition six_targets : list Q := [10; 20; 30; 40; 50; 60].

(** Storage in which the regressor file of the default model is unreadable
    and there is no scaler file. *)
Definition fs_unreadable : filesystem :=
  <[ model_path_of DEFAULT_MODEL := Corrupt ]> ∅.

Definition fs_constant : filesystem := store constant_forest centred_scaler.

End Examples.

(** * Facts about the numpy operations *)

Lemma argmax_from_first_max (y pre : list Q) (best : nat) (bv : Q) :
  first_max_at pre best bv ->
  exists w, first_max_at (pre ++ y) (np.argmax_from best bv (length pre) y) w.
Proof.
  revert pre best bv.
  induction y as [|v y IH]; intros pre best bv Hpre; simpl.
  - exists bv. by rewrite app_nil_r.
  - destruct Hpre as (Hb & Hle & Hlt).
    assert (Hlen : (best < length pre)%nat) by (by eapply lookup_lt_Some).
    replace (pre ++ v :: y) with ((pre ++ [v]) ++ y) by (by rewrite <- app_assoc).
    replace (S (length pre)) with (length (pre ++ [v]))
      by (rewrite length_app; simpl; lia).
    destruct (Qle_bool v bv) eqn:Hc.
    + apply Qle_bool_iff in Hc.
      apply IH. repeat split.
      * by rewrite lookup_app_l.
      * intros k x Hk. apply lookup_app_Some in Hk as [Hk | [_ Hk]]; [by eauto|].
        apply list_lookup_singleton_Some in Hk as [_ <-]. done.
      * intros k x Hkb Hk. rewrite lookup_app_l in Hk by lia. by eauto.
    + assert (Hv : bv < v).
      { apply Qnot_le_lt. intros Hle'. apply Qle_bool_iff in Hle'. congruence. }
      apply IH. repeat split.
      * rewrite lookup_app_r by lia. by rewrite Nat.sub_diag.
      * intros k x Hk. apply lookup_app_Some in Hk as [Hk | [_ Hk]].
        -- apply Qlt_le_weak. eapply Qle_lt_trans; [by eauto | done].
        -- apply list_lookup_singleton_Some in Hk as [_ <-]. apply Qle_refl.
      * intros k x Hkb Hk. rewrite lookup_app_l in Hk by done.
        eapply Qle_lt_trans; [by eauto | done].
Qed.

Lemma argmax_first_max (v : Q) (y : list Q) :
  exists b w, np.argmax (v :: y) = inr b /\ first_max_at (v :: y) b w.
Proof.
  destruct (argmax_from_first_max y [v] 0%nat v) as [w Hw].
  - repeat split.
    + intros [|k] x Hk; simpl in Hk; [|done].
      injection Hk as <-. apply Qle_refl.
    + intros k x Hk. lia.
  - exists (np.argmax_from 0 v 1 y), w. split; [done|]. exact Hw.
Qed.

Lemma transpose4_map {A} (f0 f1 f2 f3 : A -> Q) (l : list A) :
  np.transpose [map f0 l; map f1 l; map f2 l; map f3 l]
  = map (fun x => [f0 x; f1 x; f2 x; f3 x]) l.
Proof.
  induction l as [|x l IH]; [done|].
  simpl in *. by rewrite IH.
Qed.

Lemma ravel_mesh (val : Q * Q * Q * Q -> Q) (T P C R : list Q) :
  np.ravel (map (fun p => map (fun t => map (fun c =>
     map (fun r => val (t, p, c, r)) R) C) T) P)
  = map val (tuples T P C R).
Proof.
  unfold np.ravel, tuples.
  induction P as [|p P IHP]; [done|].
  simpl. rewrite !concat_app, map_app, IHP. f_equal. clear IHP.
  induction T as [|t T IHT]; [done|].
  simpl. rewrite !concat_app, map_app, IHT. f_equal. clear IHT.
  induction C as [|c C IHC]; [done|].
  simpl. rewrite map_app, IHC. f_equal.
  by rewrite map_map.
Qed.

Lemma code_enumeration_tuples (T P C R : list Q) :
  code_enumeration [T; P; C; R] = map row_of (tuples T P C R).
Proof.
  unfold code_enumeration, tuples.
  induction P as [|p P IHP]; [done|].
  simpl. rewrite map_app, IHP. f_equal. clear IHP.
  induction T as [|t T IHT]; [done|].
  simpl. rewrite map_app, IHT. f_equal. clear IHT.
  induction C as [|c C IHC]; [done|].
  simpl. rewrite map_app, IHC. f_equal.
  by rewrite map_map.
Qed.

(** The grid of the code enumerates pressure outer-most. *)
Lemma X_grid_of_enumeration (T P C R : list Q) :
  X_grid_of [T; P; C; R] = code_enumeration [T; P; C; R].
Proof.
  rewrite code_enumeration_tuples.
  unfold X_grid_of, np.meshgrid, np.reshape_4.
  cbn [map].
  rewrite (ravel_mesh (fun x => x.1.1.1)), (ravel_mesh (fun x => x.1.1.2)),
    (ravel_mesh (fun x => x.1.2)), (ravel_mesh (fun x => x.2)).
  rewrite transpose4_map. apply map_ext. by intros [[[t p] c] r].
Qed.


Lemma linspace_10_shape (a b : Q) :
  exists v0 v1 v2 v3 v4 v5 v6 v7 v8,
    np.linspace a b 10 = [v0; v1; v2; v3; v4; v5; v6; v7; v8; b] /\
    v0 == a + 0 * ((b - a) / 9) /\ v1 == a + 1 * ((b - a) / 9) /\
    v2 == a + 2 * ((b - a) / 9) /\ v3 == a + 3 * ((b - a) / 9) /\
    v4 == a + 4 * ((b - a) / 9) /\ v5 == a + 5 * ((b - a) / 9) /\
    v6 == a + 6 * ((b - a) / 9) /\ v7 == a + 7 * ((b - a) / 9) /\
    v8 == a + 8 * ((b - a) / 9).
Proof.
  unfold np.linspace, np.set_last, np.arange.
  cbn [Nat.sub Nat.ltb Nat.leb seq map].
  match goal with |- context [Qeq_bool ?x 0] => destruct (Qeq_bool x 0) end;
    cbn [map length Nat.sub insert list_insert];
    do 9 eexists; (split; [reflexivity|]);
    cbn [Z.of_nat Pos.of_succ_nat Pos.succ inject_Z];
    repeat split; field.
Qed.

Lemma linspace_10_length (a b : Q) : length (np.linspace a b 10) = 10%nat.
Proof.
  destruct (linspace_10_shape a b)
    as (v0 & v1 & v2 & v3 & v4 & v5 & v6 & v7 & v8 & -> & _).
  done.
Qed.

(** Entry [i] of the ten-point sequence is [a + i * (b - a) / 9]; the last
    one is [b] itself. *)
Lemma linspace_10_lookup (a b : Q) (i : nat) (v : Q) :
  np.linspace a b 10 !! i = Some v ->
  (i < 10)%nat /\ v == a + inject_Z (Z.of_nat i) * ((b - a) / 9).
Proof.
  destruct (linspace_10_shape a b)
    as (v0 & v1 & v2 & v3 & v4 & v5 & v6 & v7 & v8 & -> &
        H0 & H1 & H2 & H3 & H4 & H5 & H6 & H7 & H8).
  intros Hi.
  do 10 (destruct i as [|i];
         [injection Hi as <-; split; [lia | cbn [Z.of_nat Pos.of_succ_nat Pos.succ inject_Z]; try done; field] |]).
  done.
Qed.

Lemma linspace_10_ends (a b : Q) :
  (exists v, np.linspace a b 10 !! 0%nat = Some v /\ v == a) /\
  np.linspace a b 10 !! 9%nat = Some b.
Proof.
  destruct (linspace_10_shape a b)
    as (v0 & v1 & v2 & v3 & v4 & v5 & v6 & v7 & v8 & -> & H0 & _).
  split; [|done]. exists v0. split; [done|]. rewrite H0. field.
Qed.

(** Between the bounds, whichever way round they are given. *)
Lemma linspace_10_between (a b : Q) (i : nat) (v : Q) :
  np.linspace a b 10 !! i = Some v ->
  (a <= b -> a <= v <= b) /\ (b <= a -> b <= v <= a).
Proof.
  intros Hi. apply linspace_10_lookup in Hi as [Hlt Hv].
  assert (Hq : 0 <= inject_Z (Z.of_nat i) <= 9).
  { split.
    - change 0 with (inject_Z 0). rewrite <- Zle_Qle. lia.
    - change 9 with (inject_Z 9). rewrite <- Zle_Qle. lia. }
  set (q := inject_Z (Z.of_nat i)) in *.
  assert (Hv' : 9 * v == 9 * a + q * (b - a)) by (rewrite Hv; field).
  split; intros Hab; split; nra.
Qed.

Lemma length_flat_map_uniform {A B} (f : A -> list B) (n : nat) (l : list A) :
  (forall a, length (f a) = n) -> length (flat_map f l) = (length l * n)%nat.
Proof.
  intros Hf. induction l as [|a l IH]; [done|].
  simpl. rewrite length_app, Hf, IH. lia.
Qed.

Lemma lookup_flat_map_block {A B} (f : A -> list B) (n : nat) (l : list A)
    (i j : nat) (x : A) :
  (forall a, length (f a) = n) -> l !! i = Some x -> (j < n)%nat ->
  flat_map f l !! (i * n + j)%nat = f x !! j.
Proof.
  intros Hf. revert i.
  induction l as [|a l IH]; intros i Hi Hj; [done|].
  destruct i as [|i]; simpl in *.
  - injection Hi as ->. rewrite lookup_app_l; [done | by rewrite Hf].
  - rewrite lookup_app_r by (rewrite Hf; lia).
    rewrite Hf. replace (n + i * n + j - n)%nat with (i * n + j)%nat by lia.
    by apply IH.
Qed.

Lemma block_index_lt (i j m n : nat) :
  (i < m)%nat -> (j < n)%nat -> (i * n + j < m * n)%nat.
Proof.
  intros Hi Hj.
  assert (((i + 1) * n <= m * n)%nat) by (apply Nat.mul_le_mono_r; lia).
  lia.
Qed.

Lemma lookup_tuples (T P C R : list Q) (i j k l : nat) (t p c r : Q) :
  P !! i = Some p -> T !! j = Some t -> C !! k = Some c -> R !! l = Some r ->
  tuples T P C R
    !! (((i * length T + j) * length C + k) * length R + l)%nat
  = Some (t, p, c, r).
Proof.
  intros Hp Ht Hc Hr. unfold tuples.
  pose proof (lookup_lt_Some _ _ _ Ht) as Hj.
  pose proof (lookup_lt_Some _ _ _ Hc) as Hk.
  pose proof (lookup_lt_Some _ _ _ Hr) as Hl.
  assert (HR : forall t' p' c' : Q, length (map (fun r : Q => (t', p', c', r)) R) = length R)
    by (intros; apply length_map).
  assert (HC : forall t' p' : Q, length (flat_map (fun c : Q => map (fun r : Q => (t', p', c, r)) R) C)
                           = (length C * length R)%nat).
  { intros. apply length_flat_map_uniform. intros; apply length_map. }
  assert (HT : forall p' : Q, length (flat_map (fun t : Q => flat_map (fun c : Q =>
                   map (fun r : Q => (t, p', c, r)) R) C) T)
                = (length T * (length C * length R))%nat).
  { intros. apply length_flat_map_uniform. intros. apply HC. }
  replace (((i * length T + j) * length C + k) * length R + l)%nat
    with (i * (length T * (length C * length R))
          + (j * (length C * length R) + (k * length R + l)))%nat by lia.
  pose proof (block_index_lt k l _ _ Hk Hl) as Hkl.
  pose proof (block_index_lt j _ _ _ Hj Hkl) as Hjkl.
  rewrite (lookup_flat_map_block _ _ _ _ _ p HT Hp) by done.
  rewrite (lookup_flat_map_block _ _ _ _ _ t (fun t' => HC t' p) Ht) by done.
  rewrite (lookup_flat_map_block _ _ _ _ _ c (fun c' => HR t p c') Hc) by lia.
  by rewrite list_lookup_fmap, Hr.
Qed.

Lemma elem_of_tuples (T P C R : list Q) (t p c r : Q) :
  (t, p, c, r) ∈ tuples T P C R <-> t ∈ T /\ p ∈ P /\ c ∈ C /\ r ∈ R.
Proof.
  unfold tuples. rewrite !list_elem_of_In, in_flat_map.
  split.
  - intros (p' & Hp & H). apply in_flat_map in H as (t' & Ht & H).
    apply in_flat_map in H as (c' & Hc & H).
    apply in_map_iff in H as (r' & [= -> -> -> ->] & Hr). done.
  - intros (Ht & Hp & Hc & Hr). exists p. split; [done|].
    apply in_flat_map. exists t. split; [done|].
    apply in_flat_map. exists c. split; [done|].
    apply in_map_iff. by exists r.
Qed.

Lemma length_tuples (T P C R : list Q) :
  length (tuples T P C R) = (length P * (length T * (length C * length R)))%nat.
Proof.
  unfold tuples.
  apply length_flat_map_uniform. intros p.
  apply length_flat_map_uniform. intros t.
  apply length_flat_map_uniform. intros c.
  apply length_map.
Qed.


(** * The grid search *)

Lemma grid_axes_ranges (ranges : gmap string (list Q)) (t0 t1 p0 p1 c0 c1 r0 r1 : Q) :
  ranges_of ranges t0 t1 p0 p1 c0 c1 r0 r1 ->
  grid_axes ranges = inr [ np.linspace t0 t1 10; np.linspace p0 p1 10;
                           np.linspace c0 c1 10; np.linspace r0 r1 10 ].
Proof.
  intros [Ht Hp Hc Hr]. unfold grid_axes, getkey.
  by rewrite Ht, Hp, Hc, Hr.
Qed.

Lemma transform_row_length4 (sc : sklearn.StandardScaler) (t p c r : Q) :
  length (sklearn.mean_ sc) = 4%nat -> length (sklearn.scale_ sc) = 4%nat ->
  length (sklearn.transform_row sc [t; p; c; r]) = 4%nat.
Proof.
  intros Hm Hs. unfold sklearn.transform_row.
  rewrite !length_zip_with, Hm, Hs. done.
Qed.

Lemma transform_cons (sc : sklearn.StandardScaler) (row : list Q) (X : matrix) :
  length row = sklearn.scaler_n_features_in_ sc -> length row <> 0%nat ->
  sklearn.transform sc (row :: X) = inr (map (sklearn.transform_row sc) (row :: X)).
Proof.
  intros Hlen Hne. unfold sklearn.transform, sklearn.check_array.
  cbn [sklearn.n_samples sklearn.n_features length Nat.eqb orb].
  destruct (Nat.eqb_spec (length row) 0) as [|_]; [done|].
  cbn [bind ret sklearn.n_features].
  by rewrite Hlen, Nat.eqb_refl.
Qed.

Lemma predict_cons (m : RandomForestRegressor) (row : list Q) (X : matrix) :
  length row = n_features_in_ m -> length row <> 0%nat ->
  sklearn.predict m (row :: X) = inr (map (sklearn.forest_predict m) (row :: X)).
Proof.
  intros Hlen Hne. unfold sklearn.predict, sklearn.check_array.
  cbn [sklearn.n_samples sklearn.n_features length Nat.eqb orb].
  destruct (Nat.eqb_spec (length row) 0) as [|_]; [done|].
  cbn [bind ret sklearn.n_features].
  by rewrite Hlen, Nat.eqb_refl.
Qed.

(** Scaling and regressing a batch of four-feature rows gives the predicted
    yield of each row. *)
Lemma scaled_predictions (m : RandomForestRegressor) (sc : sklearn.StandardScaler)
    (t p c r : Q) (X : matrix) :
  fitted_pair 4 m sc ->
  (try! Xs := scaler_transform (PyScaler sc) ([t; p; c; r] :: X) in
   model_predict (PyForest m) Xs)
  = inr (map (predicted_yield_at m sc) ([t; p; c; r] :: X)).
Proof.
  intros [Hm Hsc Hmean Hscale].
  unfold scaler_transform, model_predict.
  rewrite transform_cons by (by rewrite ?Hsc).
  cbn [bind map].
  rewrite predict_cons by (by rewrite transform_row_length4, ?Hm).
  cbn [map]. by rewrite map_map.
Qed.

(** The batch of [optimize]: one predicted yield for each row of the grid. *)
Lemma grid_predictions (m : RandomForestRegressor) (sc : sklearn.StandardScaler)
    (T P C R : list Q) :
  fitted_pair 4 m sc -> tuples T P C R <> [] ->
  (try! X_grid_scaled := scaler_transform (PyScaler sc) (X_grid_of [T; P; C; R]) in
   model_predict (PyForest m) X_grid_scaled)
  = inr (map (predicted_yield_at m sc) (X_grid_of [T; P; C; R])).
Proof.
  intros Hfit Hne.
  rewrite X_grid_of_enumeration, code_enumeration_tuples.
  destruct (tuples T P C R) as [|[[[t p] c] r] rest]; [done|].
  cbn [map row_of]. by apply scaled_predictions.
Qed.

(** With a complete pair for four features loaded and a non-empty grid,
    [optimize] answers with the first maximum of the predictions over the
    grid, in the order of the grid. *)
Lemma optimize_run (fs : filesystem) (ranges : gmap string (list Q))
    (m : RandomForestRegressor) (sc : sklearn.StandardScaler)
    (T P C R : list Q) :
  model_loaded fs m sc ->
  grid_axes ranges = inr [T; P; C; R] ->
  tuples T P C R <> [] ->
  exists b w t p c r,
    optimize fs (Some ranges)
      = OptimizeOk [("温度", t); ("圧力", p); ("触媒量", c); ("反応時間", r)] w
    /\ code_enumeration [T; P; C; R] !! b = Some [t; p; c; r]
    /\ first_max_at (map (predicted_yield_at m sc) (code_enumeration [T; P; C; R])) b w.
Proof.
  intros [Hload Hfit] Haxes Hne.
  unfold optimize. rewrite Hload, Haxes. cbn [bind handler].
  rewrite X_grid_of_enumeration, code_enumeration_tuples.
  destruct (tuples T P C R) as [|[[[t1 p1] c1] r1] rest]; [done|].
  cbn [map row_of].
  set (X := [t1; p1; c1; r1] :: map row_of rest).
  pose proof (scaled_predictions m sc t1 p1 c1 r1 (map row_of rest) Hfit) as Hy.
  fold X in Hy.
  destruct (scaler_transform (PyScaler sc) X) as [e|Xs]; [done|].
  cbn [bind] in Hy |- *. rewrite Hy. clear Hy Xs. cbn [bind].
  destruct (argmax_first_max (predicted_yield_at m sc [t1; p1; c1; r1])
              (map (predicted_yield_at m sc) (map row_of rest)))
    as (b & w & Harg & Hmax).
  change (predicted_yield_at m sc [t1; p1; c1; r1]
          :: map (predicted_yield_at m sc) (map row_of rest))
    with (map (predicted_yield_at m sc) X) in Harg, Hmax.
  rewrite Harg. cbn [bind].
  pose proof Hmax as (Hb & _).
  pose proof Hb as Hb'.
  apply list_lookup_fmap_Some in Hb' as (row & Hw & Hrow).
  assert (Hshape : exists t p c r, row = [t; p; c; r]).
  { subst X. change ([t1; p1; c1; r1] :: map row_of rest)
      with (map row_of ((t1, p1, c1, r1) :: rest)) in Hrow.
    apply list_lookup_fmap_Some in Hrow as ([[[t p] c] r] & -> & _).
    by exists t, p, c, r. }
  destruct Hshape as (t & p & c & r & ->).
  exists b, w, t, p, c, r.
  split; [|split; [exact Hrow | exact Hmax]].
  unfold getitem2, getitem. rewrite Hrow, Hb. done.
Qed.

Lemma linspace_evenly_spaced (a b : Q) :
  evenly_spaced a b (np.linspace a b grid_points).
Proof.
  unfold evenly_spaced, grid_points.
  split; [apply linspace_10_length|].
  split; [|apply linspace_10_ends].
  intros i v Hi. by apply linspace_10_lookup in Hi as [_ Hv].
Qed.

Lemma linspace_10_nonempty (a b : Q) : np.linspace a b 10 <> [].
Proof.
  intros E. pose proof (linspace_10_length a b) as Hl. by rewrite E in Hl.
Qed.

(** Place of a candidate in the grid: pressure index first, then temperature,
    catalyst amount and reaction time. *)
Lemma lookup_grid_10 (T P C R : list Q) (i j k l : nat) (t p c r : Q) :
  length T = 10%nat -> length C = 10%nat -> length R = 10%nat ->
  P !! i = Some p -> T !! j = Some t -> C !! k = Some c -> R !! l = Some r ->
  X_grid_of [T; P; C; R] !! (i * 1000 + j * 100 + k * 10 + l)%nat
  = Some [t; p; c; r].
Proof.
  intros HT HC HR Hp Ht Hc Hr.
  rewrite X_grid_of_enumeration, code_enumeration_tuples, list_lookup_fmap.
  pose proof (lookup_tuples T P C R i j k l t p c r Hp Ht Hc Hr) as Hx.
  rewrite HT, HC, HR in Hx.
  replace (i * 1000 + j * 100 + k * 10 + l)%nat
    with (((i * 10 + j) * 10 + k) * 10 + l)%nat by lia.
  by rewrite Hx.
Qed.

Lemma elem_of_grid (T P C R : list Q) (row : list Q) :
  row ∈ X_grid_of [T; P; C; R] <->
  exists t p c r, row = [t; p; c; r] /\ t ∈ T /\ p ∈ P /\ c ∈ C /\ r ∈ R.
Proof.
  rewrite X_grid_of_enumeration, code_enumeration_tuples, list_elem_of_fmap.
  split.
  - intros ([[[t p] c] r] & -> & Hx). apply elem_of_tuples in Hx.
    by exists t, p, c, r.
  - intros (t & p & c & r & -> & Hx). exists (t, p, c, r).
    split; [done|]. by apply elem_of_tuples.
Qed.


(** C1, as amended.  With the default model loaded and a request that gives
    each of the four parameters a pair of bounds, [optimize] returns a
    candidate of the grid whose predicted yield is at least the prediction at
    every candidate of the grid; among candidates of equal yield it returns
    the first one of the grid, and the grid enumerates pressure outer-most,
    then temperature, then catalyst amount, and reaction time inner-most
    (candidate [(t_j, p_i, c_k, r_l)] stands at place
    [1000 i + 100 j + 10 k + l]). *)
Theorem optimize_returns_first_maximum
    (fs : filesystem) (ranges : gmap string (list Q))
    (m : RandomForestRegressor) (sc : sklearn.StandardScaler)
    (t0 t1 p0 p1 c0 c1 r0 r1 : Q) :
  model_loaded fs m sc ->
  ranges_of ranges t0 t1 p0 p1 c0 c1 r0 r1 ->
  let T := np.linspace t0 t1 grid_points in
  let P := np.linspace p0 p1 grid_points in
  let C := np.linspace c0 c1 grid_points in
  let R := np.linspace r0 r1 grid_points in
  let X_grid := X_grid_of [T; P; C; R] in
  exists b t p c r w,
    optimize fs (Some ranges)
      = OptimizeOk [("温度", t); ("圧力", p); ("触媒量", c); ("反応時間", r)] w
    /\ X_grid !! b = Some [t; p; c; r]
    /\ w = predicted_yield_at m sc [t; p; c; r]
    /\ (forall row, row ∈ X_grid -> predicted_yield_at m sc row <= w)
    /\ (forall k row, (k < b)%nat -> X_grid !! k = Some row ->
          predicted_yield_at m sc row < w)
    /\ (forall i j k l t' p' c' r',
          P !! i = Some p' -> T !! j = Some t' ->
          C !! k = Some c' -> R !! l = Some r' ->
          X_grid !! (i * 1000 + j * 100 + k * 10 + l)%nat = Some [t'; p'; c'; r']).
Proof.
  intros Hload Hranges T P C R X_grid.
  destruct (optimize_run fs ranges m sc T P C R Hload) as
    (b & w & t & p & c & r & Hopt & Hrow & Hb & Hle & Hlt).
  - by apply grid_axes_ranges.
  - intros E. pose proof (length_tuples T P C R) as Hlen.
    rewrite E in Hlen. subst T P C R. unfold grid_points in Hlen.
    rewrite !linspace_10_length in Hlen. done.
  - subst X_grid. rewrite X_grid_of_enumeration.
    exists b, t, p, c, r, w. split; [done|]. split; [done|].
    rewrite list_lookup_fmap, Hrow in Hb. injection Hb as Hb.
    split; [done|]. split; [|split].
    + intros row Hin. apply list_elem_of_lookup in Hin as [k Hk].
      apply (Hle k). by rewrite list_lookup_fmap, Hk.
    + intros k row Hk Hin. apply (Hlt k); [done|].
      by rewrite list_lookup_fmap, Hin.
    + intros i j k l t' p' c' r' Hp Ht Hc Hr.
      rewrite <- X_grid_of_enumeration.
      apply lookup_grid_10; try done; apply linspace_10_length.
Qed.

(** C2.  With the default model loaded (without one [optimize] answers 404
    before any grid is built), for a request whose four ranges have
    lower <= upper: each axis that [optimize] builds is the evenly spaced
    sequence of 10 values from the lower to the upper bound inclusive; its
    candidates are the full Cartesian product of the four axes (10,000 rows,
    one for each choice of four axis entries); every candidate lies within
    the bounds of the request; and these candidates are what [optimize]
    evaluates: the batch it scales and predicts holds the predicted yield of
    each of them, and its answer is the first maximum of that batch, at the
    candidate of the same place. *)
Theorem grid_is_bounded_product
    (fs : filesystem) (m : RandomForestRegressor) (sc : sklearn.StandardScaler)
    (ranges : gmap string (list Q)) (t0 t1 p0 p1 c0 c1 r0 r1 : Q) :
  model_loaded fs m sc ->
  ranges_of ranges t0 t1 p0 p1 c0 c1 r0 r1 ->
  t0 <= t1 -> p0 <= p1 -> c0 <= c1 -> r0 <= r1 ->
  exists T P C R b t p c r w,
    grid_axes ranges = inr [T; P; C; R]
    /\ (try! X_grid_scaled := scaler_transform (PyScaler sc) (X_grid_of [T; P; C; R]) in
        model_predict (PyForest m) X_grid_scaled)
       = inr (map (predicted_yield_at m sc) (X_grid_of [T; P; C; R]))
    /\ optimize fs (Some ranges)
       = OptimizeOk [("温度", t); ("圧力", p); ("触媒量", c); ("反応時間", r)] w
    /\ X_grid_of [T; P; C; R] !! b = Some [t; p; c; r]
    /\ first_max_at (map (predicted_yield_at m sc) (X_grid_of [T; P; C; R])) b w
    /\ evenly_spaced t0 t1 T /\ evenly_spaced p0 p1 P
    /\ evenly_spaced c0 c1 C /\ evenly_spaced r0 r1 R
    /\ length (X_grid_of [T; P; C; R]) = (grid_points ^ 4)%nat
    /\ (forall row, row ∈ X_grid_of [T; P; C; R] <->
          exists t p c r, row = [t; p; c; r] /\ t ∈ T /\ p ∈ P /\ c ∈ C /\ r ∈ R)
    /\ (forall i j k l t p c r,
          P !! i = Some p -> T !! j = Some t -> C !! k = Some c -> R !! l = Some r ->
          X_grid_of [T; P; C; R] !! (i * 1000 + j * 100 + k * 10 + l)%nat
          = Some [t; p; c; r])
    /\ (forall row, row ∈ X_grid_of [T; P; C; R] ->
          exists t p c r, row = [t; p; c; r]
            /\ t0 <= t <= t1 /\ p0 <= p <= p1 /\ c0 <= c <= c1 /\ r0 <= r <= r1).
Proof.
  intros Hload Hranges Ht Hp Hc Hr.
  assert (Hne : tuples (np.linspace t0 t1 10) (np.linspace p0 p1 10)
                  (np.linspace c0 c1 10) (np.linspace r0 r1 10) <> []).
  { intros E. pose proof (length_tuples (np.linspace t0 t1 10)
      (np.linspace p0 p1 10) (np.linspace c0 c1 10) (np.linspace r0 r1 10)) as Hlen.
    rewrite E, !linspace_10_length in Hlen. done. }
  destruct (optimize_run fs ranges m sc
              (np.linspace t0 t1 10) (np.linspace p0 p1 10)
              (np.linspace c0 c1 10) (np.linspace r0 r1 10) Hload
              (grid_axes_ranges _ _ _ _ _ _ _ _ _ Hranges) Hne)
    as (b & w & tb & pb & cb & rb & Hopt & Hrow & Hmax).
  rewrite <- X_grid_of_enumeration in Hrow, Hmax.
  exists (np.linspace t0 t1 10), (np.linspace p0 p1 10),
         (np.linspace c0 c1 10), (np.linspace r0 r1 10), b, tb, pb, cb, rb, w.
  split; [by apply grid_axes_ranges|].
  split; [apply grid_predictions; [apply Hload | exact Hne]|].
  split; [exact Hopt|].
  split; [exact Hrow|]. split; [exact Hmax|].
  do 4 (split; [apply linspace_evenly_spaced|]).
  split.
  { rewrite X_grid_of_enumeration, code_enumeration_tuples, length_map,
      length_tuples, !linspace_10_length. done. }
  split; [apply elem_of_grid|].
  split.
  { intros. apply lookup_grid_10; try done; apply linspace_10_length. }
  intros row Hin. apply elem_of_grid in Hin as (t & p & c & r & -> & Hin).
  destruct Hin as (Hti & Hpi & Hci & Hri).
  exists t, p, c, r. split; [done|].
  apply list_elem_of_lookup in Hti as [i Hti], Hpi as [j Hpi],
    Hci as [k Hci], Hri as [l Hri].
  apply linspace_10_between in Hti as [Hti _], Hpi as [Hpi _],
    Hci as [Hci _], Hri as [Hri _].
  auto.
Qed.

Lemma example_model_loaded :
  model_loaded Examples.fs_xor Examples.xor_forest Examples.unit_scaler.
Proof. split; [vm_compute; reflexivity | constructor; reflexivity]. Qed.

Lemma example_ranges_of (t0 t1 p0 p1 c0 c1 r0 r1 : Q) :
  ranges_of (Examples.request [t0; t1] [p0; p1] [c0; c1] [r0; r1])
    t0 t1 p0 p1 c0 c1 r0 r1.
Proof. constructor; vm_compute; reflexivity. Qed.

(** The statement of C1 at the stored pair [xor_forest], [unit_scaler] and the
    request with all four ranges [0, 9]. *)
Lemma optimize_returns_first_maximum_witness :
  model_loaded Examples.fs_xor Examples.xor_forest Examples.unit_scaler /\
  ranges_of Examples.ranges_0_9 0 9 0 9 0 9 0 9 /\
  exists t p c r w,
    optimize Examples.fs_xor (Some Examples.ranges_0_9)
      = OptimizeOk [("温度", t); ("圧力", p); ("触媒量", c); ("反応時間", r)] w
    /\ w = predicted_yield_at Examples.xor_forest Examples.unit_scaler [t; p; c; r].
Proof.
  split; [apply example_model_loaded|].
  split; [apply example_ranges_of|].
  destruct (optimize_returns_first_maximum Examples.fs_xor Examples.ranges_0_9
              Examples.xor_forest Examples.unit_scaler 0 9 0 9 0 9 0 9
              example_model_loaded (example_ranges_of 0 9 0 9 0 9 0 9))
    as (b & t & p & c & r & w & Hopt & _ & Hw & _).
  exists t, p, c, r, w. split; [exact Hopt | exact Hw].
Defined.

(** C1 as stated fails: the forest [xor_forest] predicts the maximal yield 1
    both at (temperature 0, pressure 1) and at (temperature 1, pressure 0).
    In the enumeration with temperature outer-most the first of the two is
    (0, 1, 0, 0); [optimize] returns (1, 0, 0, 0). *)
Lemma optimize_tie_break_counterexample :
  let axis := np.linspace 0 9 grid_points in
  let yield := predicted_yield_at Examples.xor_forest Examples.unit_scaler in
  optimize Examples.fs_xor (Some Examples.ranges_0_9)
    = OptimizeOk [("温度", 9 # 9); ("圧力", 0 # 9); ("触媒量", 0 # 9);
                  ("反応時間", 0 # 9)] 1
  /\ first_best yield (spec_enumeration [axis; axis; axis; axis])
     = Some [0 # 9; 9 # 9; 0 # 9; 0 # 9]
  /\ yield [0 # 9; 9 # 9; 0 # 9; 0 # 9] = 1
  /\ ~ (9 # 9 == 0 # 9).
Proof.
  split; [vm_compute; reflexivity|].
  split; [vm_compute; reflexivity|].
  split; [vm_compute; reflexivity|].
  intros H. discriminate H.
Qed.

(** The statement of C2 at the request with all four ranges [0, 9]. *)
Lemma grid_is_bounded_product_witness :
  model_loaded Examples.fs_xor Examples.xor_forest Examples.unit_scaler /\
  ranges_of Examples.ranges_0_9 0 9 0 9 0 9 0 9 /\
  0 <= 9 /\
  exists T P C R t p c r w,
    grid_axes Examples.ranges_0_9 = inr [T; P; C; R]
    /\ optimize Examples.fs_xor (Some Examples.ranges_0_9)
       = OptimizeOk [("温度", t); ("圧力", p); ("触媒量", c); ("反応時間", r)] w
    /\ length (X_grid_of [T; P; C; R]) = (grid_points ^ 4)%nat.
Proof.
  split; [apply example_model_loaded|].
  split; [apply example_ranges_of|].
  split; [discriminate|].
  destruct (grid_is_bounded_product Examples.fs_xor Examples.xor_forest
              Examples.unit_scaler Examples.ranges_0_9 0 9 0 9 0 9 0 9
              example_model_loaded (example_ranges_of 0 9 0 9 0 9 0 9))
    as (T & P & C & R & b & t & p & c & r & w
        & Hax & _ & Hopt & _ & _ & _ & _ & _ & _ & Hlen & _); try discriminate.
  exists T, P, C, R, t, p, c, r, w.
  split; [exact Hax|]. split; [exact Hopt | exact Hlen].
Defined.


(** * The sample generator *)

Section generator_facts.
Context `{NumpyRandom}.

Lemma draws_length (n : nat) (g : rng_state) : length (draws n g).1 = n.
Proof.
  revert g. induction n as [|n IH]; intros g; [done|].
  simpl. destruct (random_sample g) as [u g1].
  specialize (IH g1). destruct (draws n g1) as [us g2]. simpl in *. lia.
Qed.

Lemma draws_app (a b : nat) (g : rng_state) :
  draws (a + b) g
  = ((draws a g).1 ++ (draws b (draws a g).2).1, (draws b (draws a g).2).2).
Proof.
  revert g. induction a as [|a IH]; intros g.
  - simpl. by destruct (draws b g).
  - simpl. destruct (random_sample g) as [u g1].
    rewrite IH. by destruct (draws a g1).
Qed.

(** Row [i] of [np.random.rand(n, m)] holds the draws [i*m .. i*m + m - 1]
    of the stream. *)
Lemma np_random_rand_rows (n m : nat) (g : rng_state) (i : nat) :
  (i < n)%nat ->
  exists row, (np_random_rand n m g).1 !! i = Some row /\ length row = m /\
    forall j, (j < m)%nat -> row !! j = (draws (n * m) g).1 !! (i * m + j)%nat.
Proof.
  revert g i. induction n as [|n IH]; intros g i Hi; [lia|].
  simpl. rewrite draws_app.
  pose proof (draws_length m g) as Hlen.
  destruct (draws m g) as [row g1]. simpl in *.
  destruct i as [|i].
  - destruct (np_random_rand n m g1) as [rows g2]. simpl.
    exists row. split; [done|]. split; [done|].
    intros j Hj. by rewrite lookup_app_l by lia.
  - destruct (IH g1 i) as (r & Hr & Hrl & Hrj); [lia|].
    destruct (np_random_rand n m g1) as [rows g2]. simpl in *.
    exists r. split; [done|]. split; [done|].
    intros j Hj. rewrite lookup_app_r by lia.
    rewrite Hrj by done. f_equal. lia.
Qed.

Lemma np_random_rand_length (n m : nat) (g : rng_state) :
  length (np_random_rand n m g).1 = n.
Proof.
  revert g. induction n as [|n IH]; intros g; [done|].
  simpl. destruct (draws m g) as [row g1].
  specialize (IH g1). destruct (np_random_rand n m g1). simpl in *. lia.
Qed.

Hypothesis uniform : forall s, 0 <= (random_sample s).1 < 1.

Lemma draws_uniform (n : nat) (g : rng_state) (k : nat) (u : Q) :
  (draws n g).1 !! k = Some u -> 0 <= u < 1.
Proof.
  revert g k. induction n as [|n IH]; intros g k; [done|].
  simpl. pose proof (uniform g) as Hu.
  destruct (random_sample g) as [u0 g1].
  specialize (IH g1). destruct (draws n g1) as [us g2]. simpl in *.
  destruct k as [|k]; simpl.
  - by intros [= <-].
  - apply IH.
Qed.

(** C3.  The generated data do not depend on the state the generator is
    in when [generate_sample_data] is called (it reseeds with 42), so two
    calls give identical training sets of 100 samples.  Sample [i] is made
    from the four draws [4i .. 4i+3] of the seeded stream, each in [0,1),
    mapped to temperature in [50,150], pressure in [1,10], catalyst amount
    in [0.1,2.0] and reaction time in [1,24]; its yield is
    [clip(100 * (0.4 t + 0.3 p^2 + 0.2 c + 0.1 r) / 100, 0, 100)]. *)
Theorem generate_sample_data_deterministic (g g' : rng_state) :
  let stream := (draws 400 (np_random_seed 42)).1 in
  exists X Y,
    (generate_sample_data g).1 = (X, Y)
    /\ (generate_sample_data g').1 = (X, Y)
    /\ (generate_sample_data (generate_sample_data g).2).1 = (X, Y)
    /\ length X = 100%nat /\ length Y = 100%nat
    /\ forall i, (i < 100)%nat ->
         exists u0 u1 u2 u3 t p c r y,
           stream !! (i * 4)%nat = Some u0 /\ stream !! (i * 4 + 1)%nat = Some u1
           /\ stream !! (i * 4 + 2)%nat = Some u2 /\ stream !! (i * 4 + 3)%nat = Some u3
           /\ (0 <= u0 < 1) /\ (0 <= u1 < 1) /\ (0 <= u2 < 1) /\ (0 <= u3 < 1)
           /\ t = u0 * 100 + 50 /\ p = u1 * 9 + 1
           /\ c = u2 * 1.9 + 0.1 /\ r = u3 * 23 + 1
           /\ X !! i = Some [t; p; c; r]
           /\ (50 <= t <= 150) /\ (1 <= p <= 10)
           /\ (0.1 <= c <= 2.0) /\ (1 <= r <= 24)
           /\ Y !! i = Some (np.clip y 0 100)
           /\ y == 100 * (0.4 * t + 0.3 * p ^ 2 + 0.2 * c + 0.1 * r) / 100
           /\ (0 <= np.clip y 0 100 <= 100).
Proof.
  intros stream.
  unfold generate_sample_data.
  pose proof (np_random_rand_length 100 4 (np_random_seed 42)) as Hlen.
  pose proof (np_random_rand_rows 100 4 (np_random_seed 42)) as Hrows.
  change (100 * 4)%nat with 400%nat in Hrows. fold stream in Hrows.
  destruct (np_random_rand 100 4 (np_random_seed 42)) as [X0 g1].
  cbn [fst snd] in *.
  eexists _, _. split; [reflexivity|]. split; [reflexivity|].
  split; [reflexivity|].
  unfold set_column. rewrite !length_map. split; [done|]. split; [done|].
  intros i Hi.
  destruct (Hrows i Hi) as (row & Hrow & Hl & Hj).
  destruct row as [|u0 [|u1 [|u2 [|u3 [|]]]]]; try done.
  pose proof (Hj 0%nat ltac:(lia)) as H0. pose proof (Hj 1%nat ltac:(lia)) as H1.
  pose proof (Hj 2%nat ltac:(lia)) as H2. pose proof (Hj 3%nat ltac:(lia)) as H3.
  cbn [lookup list_lookup] in H0, H1, H2, H3.
  rewrite Nat.add_0_r in H0.
  symmetry in H0, H1, H2, H3.
  pose proof (draws_uniform _ _ _ _ H0) as Hu0.
  pose proof (draws_uniform _ _ _ _ H1) as Hu1.
  pose proof (draws_uniform _ _ _ _ H2) as Hu2.
  pose proof (draws_uniform _ _ _ _ H3) as Hu3.
  exists u0, u1, u2, u3, (u0 * 100 + 50), (u1 * 9 + 1), (u2 * 1.9 + 0.1),
    (u3 * 23 + 1).
  eexists.
  do 4 (split; [done|]). do 4 (split; [done|]). do 4 (split; [done|]).
  split. { rewrite !list_lookup_fmap, Hrow. reflexivity. }
  split; [lra|]. split; [lra|]. split; [lra|]. split; [lra|].
  split. { rewrite !list_lookup_fmap, Hrow. reflexivity. }
  split. { unfold col. cbn [alter list_alter nth]. field. }
  unfold np.clip. split.
  - apply Q.min_glb; [apply Q.le_max_r | lra].
  - apply Q.le_min_r.
Qed.

End generator_facts.

(** The congruential generator draws from [0, 1). *)
Lemma lcg_uniform (s : Z) : 0 <= (@random_sample Examples.lcg s).1 < 1.
Proof.
  cbn [random_sample Examples.lcg fst]. unfold Examples.lcg_next.
  pose proof (Z.mod_pos_bound (1103515245 * s + 12345) Examples.lcg_modulus
                ltac:(done)) as Hb.
  unfold Examples.lcg_modulus in *.
  unfold Qle, Qlt. cbn [Qnum Qden]. lia.
Qed.

(** The statement of C3 with the congruential generator, called in the
    states 0 and 7. *)
Lemma generate_sample_data_deterministic_witness :
  (forall s, 0 <= (@random_sample Examples.lcg s).1 < 1) /\
  exists X Y,
    (@generate_sample_data Examples.lcg 0%Z).1 = (X, Y)
    /\ (@generate_sample_data Examples.lcg 7%Z).1 = (X, Y).
Proof.
  split; [exact lcg_uniform|].
  destruct (@generate_sample_data_deterministic Examples.lcg lcg_uniform 0%Z 7%Z)
    as (X & Y & H1 & H2 & _).
  exists X, Y. split; [exact H1 | exact H2].
Defined.


(** * Loading the artifact pair *)

Lemma load_model_cases (fs : filesystem) (model_name : string) :
  (load_model fs model_name = (None, None) /\
   (artifacts_absent fs model_name
    \/ fs !! model_path_of model_name = Some Corrupt
    \/ fs !! scaler_path_of model_name = Some Corrupt))
  \/ exists model scaler,
       load_model fs model_name = (Some model, Some scaler)
       /\ fs !! model_path_of model_name = Some (Pickle model)
       /\ fs !! scaler_path_of model_name = Some (Pickle scaler).
Proof.
  unfold load_model, artifacts_absent, os_path.exists_, joblib.load.
  destruct (fs !! model_path_of model_name) as [[model|]|] eqn:Em;
    destruct (fs !! scaler_path_of model_name) as [[scaler|]|] eqn:Es;
    cbn; eauto 10.
Qed.

(** C4.  When either artifact of a model name is missing from storage,
    [load_model] gives no model ([None, None]); and with the default model
    missing, a Predict request with features and an Optimize request with
    ranges are both answered with the model-not-found failure (status 404,
    [success] false). *)
Theorem missing_model_not_found (fs : filesystem) (model_name : string)
    (data_features : list Q) (ranges : gmap string (list Q)) :
  artifacts_absent fs model_name ->
  load_model fs model_name = (None, None)
  /\ (model_name = DEFAULT_MODEL ->
      predict fs (Some data_features)
        = Failure 404 (Text "Model not found. Please train the model first.")
      /\ optimize fs (Some ranges)
        = Failure 404 (Text "Model not found. Please train the model first.")
      /\ error_kind_of (predict fs (Some data_features)) = Some ModelNotFoundError
      /\ error_kind_of (optimize fs (Some ranges)) = Some ModelNotFoundError
      /\ success (predict fs (Some data_features)) = false
      /\ success (optimize fs (Some ranges)) = false).
Proof.
  intros Habs.
  assert (Hload : load_model fs model_name = (None, None)).
  { destruct (load_model_cases fs model_name)
      as [[Hl _] | (m & s & _ & Hm & Hs)]; [done|].
    destruct Habs; congruence. }
  split; [done|]. intros ->.
  unfold predict, optimize. rewrite Hload. done.
Qed.

(** The statement of C4 on the empty file system. *)
Lemma missing_model_not_found_witness :
  artifacts_absent ∅ DEFAULT_MODEL /\
  predict ∅ (Some [100; 5; 1; 12])
    = Failure 404 (Text "Model not found. Please train the model first.").
Proof.
  assert (Habs : artifacts_absent ∅ DEFAULT_MODEL) by (left; reflexivity).
  split; [exact Habs|].
  destruct (missing_model_not_found ∅ DEFAULT_MODEL [100; 5; 1; 12] ∅ Habs)
    as [_ Hreq].
  destruct (Hreq eq_refl) as [Hp _]. exact Hp.
Defined.

(** C10.  [load_model] returns both artifacts or neither: either
    [(None, None)], or a model and a scaler that are the two stored files of
    that name.  A Predict or Optimize request that succeeds has had a complete
    pair loaded. *)
Theorem load_model_both_or_neither (fs : filesystem) (model_name : string)
    (data_p : option (list Q)) (data_o : option (gmap string (list Q))) :
  (load_model fs model_name = (None, None)
   \/ exists model scaler,
        load_model fs model_name = (Some model, Some scaler)
        /\ fs !! model_path_of model_name = Some (Pickle model)
        /\ fs !! scaler_path_of model_name = Some (Pickle scaler))
  /\ (success (predict fs data_p) = false
      \/ exists model scaler,
           load_model fs DEFAULT_MODEL = (Some model, Some scaler))
  /\ (success (optimize fs data_o) = false
      \/ exists model scaler,
           load_model fs DEFAULT_MODEL = (Some model, Some scaler)).
Proof.
  split.
  { destruct (load_model_cases fs model_name) as [[Hl _] | Hpair]; eauto. }
  unfold predict, optimize.
  destruct (load_model_cases fs DEFAULT_MODEL)
    as [[Hl _] | (m & s & Hl & _)]; rewrite Hl.
  - split; [destruct data_p | destruct data_o]; by left.
  - split; right; eauto.
Qed.


(** * Requests that the service does not validate *)

(** C5, as amended.  With the default model loaded, Predict on a vector of
    exactly 4 components scales it, regresses and attaches the loaded
    forest's feature importances.  On a vector of any other length it fails
    in the scaler, and the request is answered by the catch-all handler:
    status 500 with the text of the [ValueError], the answer given to every
    unexpected exception, not an answer of its own for invalid input. *)
Theorem predict_by_feature_count (fs : filesystem)
    (m : RandomForestRegressor) (sc : sklearn.StandardScaler)
    (data_features : list Q) :
  model_loaded fs m sc ->
  predict fs (Some data_features)
  = (if (length data_features =? 4)%nat
     then PredictOk (predicted_yield_at m sc data_features)
                    (zip feature_names (feature_importances_ m))
     else Failure 500 (Str (ValueError
            (if (length data_features =? 0)%nat then FoundEmptyArray
             else NFeaturesMismatch (length data_features) 4))))
  /\ error_kind_of (predict fs (Some data_features))
     = (if (length data_features =? 4)%nat then None else Some InternalError).
Proof.
  intros [Hload [Hm Hsc Hmean Hscale]].
  assert (Hp : predict fs (Some data_features)
    = (if (length data_features =? 4)%nat
       then PredictOk (predicted_yield_at m sc data_features)
                      (zip feature_names (feature_importances_ m))
       else Failure 500 (Str (ValueError
              (if (length data_features =? 0)%nat then FoundEmptyArray
               else NFeaturesMismatch (length data_features) 4))))).
  { unfold predict. rewrite Hload.
    unfold scaler_transform, sklearn.transform, sklearn.check_array.
    cbn [sklearn.n_samples sklearn.n_features length Nat.eqb orb].
    destruct (Nat.eqb_spec (length data_features) 0) as [E0|N0].
    - rewrite E0. done.
    - cbn [bind ret sklearn.n_features]. rewrite Hsc.
      destruct (Nat.eqb_spec (length data_features) 4) as [E4|N4]; [|done].
      cbn [bind ret map model_predict].
      destruct data_features as [|t [|p [|c [|r [|]]]]]; try done.
      rewrite predict_cons by (by rewrite transform_row_length4, ?Hm).
      done. }
  split; [exact Hp|]. rewrite Hp.
  by destruct (length data_features =? 4)%nat.
Qed.

(** The statement of C5 at the stored pair [xor_forest], [unit_scaler] and
    the vector (1, 0, 3, 4). *)
Lemma predict_by_feature_count_witness :
  model_loaded Examples.fs_xor Examples.xor_forest Examples.unit_scaler /\
  predict Examples.fs_xor (Some [1; 0; 3; 4])
  = PredictOk (predicted_yield_at Examples.xor_forest Examples.unit_scaler [1; 0; 3; 4])
      (zip feature_names (feature_importances_ Examples.xor_forest)).
Proof.
  split; [exact example_model_loaded|].
  destruct (predict_by_feature_count Examples.fs_xor Examples.xor_forest
              Examples.unit_scaler [1; 0; 3; 4] example_model_loaded)
    as [Hp _].
  exact Hp.
Defined.

(** C5 as stated fails: with a model stored, a vector of 3 components is
    answered with status 500 and the scaler's [ValueError], which is the
    catch-all failure and not the invalid-input one. *)
Lemma predict_wrong_length_counterexample :
  predict Examples.fs_xor (Some [1; 2; 3])
    = Failure 500 (Str (ValueError (NFeaturesMismatch 3 4)))
  /\ error_kind_of (predict Examples.fs_xor (Some [1; 2; 3]))
     <> Some InvalidInputError.
Proof. split; [vm_compute; reflexivity | vm_compute; discriminate]. Qed.

Ltac in_feature_names :=
  unfold feature_names; apply list_elem_of_In; simpl; tauto.







(** * The scaler *)

Lemma lookup_nth_default (row : list Q) (j : nat) (v : Q) :
  row !! j = Some v -> nth j row 0 = v.
Proof.
  revert j. induction row as [|x row IH]; intros [|j] Hj; try done.
  - by injection Hj.
  - by apply IH.
Qed.

(** Column [j] of a matrix whose rows all have [d] entries. *)
Lemma transpose_lookup (d : nat) (X : matrix) (j : nat) :
  X <> [] -> rectangular d X -> (j < d)%nat ->
  np.transpose X !! j = Some (map (fun row => nth j row 0) X).
Proof.
  intros Hne Hrect Hj.
  induction X as [|r X IH]; [done|].
  apply Forall_cons in Hrect as [Hr Hrect].
  destruct (lookup_lt_is_Some_2 r j ltac:(lia)) as [v Hv].
  destruct X as [|r' X].
  - cbn [np.transpose map]. rewrite list_lookup_fmap, Hv.
    cbn. by rewrite (lookup_nth_default _ _ _ Hv).
  - specialize (IH ltac:(done) Hrect).
    change (np.transpose (r :: r' :: X))
      with (zip_with cons r (np.transpose (r' :: X))).
    rewrite lookup_zip_with, Hv, IH. cbn.
    by rewrite (lookup_nth_default _ _ _ Hv).
Qed.

Lemma transpose_length (d : nat) (X : matrix) :
  X <> [] -> rectangular d X -> length (np.transpose X) = d.
Proof.
  intros Hne Hrect.
  induction X as [|r X IH]; [done|].
  apply Forall_cons in Hrect as [Hr Hrect].
  destruct X as [|r' X].
  - cbn [np.transpose]. by rewrite length_map.
  - specialize (IH ltac:(done) Hrect).
    change (np.transpose (r :: r' :: X))
      with (zip_with cons r (np.transpose (r' :: X))).
    rewrite length_zip_with, IH, Hr. lia.
Qed.

Lemma sum_constant (c : Q) (l : list Q) :
  Forall (fun v => v == c) l ->
  sklearn.sum l == inject_Z (Z.of_nat (length l)) * c.
Proof.
  induction 1 as [|v l Hv _ IH].
  - cbn. ring.
  - cbn [sklearn.sum fold_right length]. fold (sklearn.sum l).
    rewrite IH, Hv, Nat2Z.inj_succ, <- Z.add_1_r, inject_Z_plus. ring.
Qed.

Lemma length_nonzero_Q {A} (l : list A) :
  l <> [] -> ~ inject_Z (Z.of_nat (length l)) == 0.
Proof.
  intros Hne Hq. destruct l; [done|].
  rewrite length_cons in Hq. unfold Qeq in Hq. cbn [inject_Z Qnum Qden] in Hq. lia.
Qed.

Lemma mean_constant (c : Q) (l : list Q) :
  l <> [] -> Forall (fun v => v == c) l -> sklearn.mean l == c.
Proof.
  intros Hne Hc. unfold sklearn.mean. rewrite (sum_constant c l Hc).
  field. by apply length_nonzero_Q.
Qed.

Lemma var_constant (c : Q) (l : list Q) :
  l <> [] -> Forall (fun v => v == c) l -> sklearn.var l == 0.
Proof.
  intros Hne Hc. unfold sklearn.var.
  apply mean_constant.
  - by destruct l.
  - apply Forall_fmap. eapply Forall_impl; [exact Hc|].
    intros v Hv. cbn. rewrite Hv, (mean_constant c l Hne Hc). ring.
Qed.

Section scaler_facts.
Context `{Sklearn}.

(** C8, as amended.  When feature [j] has the same value [c] in every row
    of the fit set, the fitted scaler holds variance 0 and mean [c] for that
    feature, and its scale factor is 1 (the constant-feature convention of
    [StandardScaler]), so nothing is divided by zero.  [transform] then
    returns [x_j - c] for that feature: 0 for every row of the fit set and
    for any input whose component equals [c], and the plain difference
    for any other input. *)
Theorem constant_feature_scaled_by_one (X : matrix) (d j : nat) (c : Q) :
  X <> [] -> rectangular d X -> (j < d)%nat ->
  (forall row, row ∈ X -> exists v, row !! j = Some v /\ v == c) ->
  exists sc,
    sklearn.fit X = inr sc
    /\ (exists v, sklearn.var_ sc !! j = Some v /\ v == 0)
    /\ sklearn.scale_ sc !! j = Some 1
    /\ (exists mu, sklearn.mean_ sc !! j = Some mu /\ mu == c)
    /\ forall x xj, length x = d -> x !! j = Some xj ->
         exists z, sklearn.transform_row sc x !! j = Some z
                   /\ z == xj - c /\ (xj == c -> z == 0).
Proof.
  intros Hne Hrect Hj Hconst.
  set (column := map (fun row => nth j row 0) X).
  assert (Hcol : np.transpose X !! j = Some column)
    by (by apply (transpose_lookup d)).
  assert (Hcne : column <> []) by (subst column; by destruct X).
  assert (Hall : Forall (fun v => v == c) column).
  { subst column. apply Forall_fmap, Forall_forall. intros row Hin.
    destruct (Hconst row Hin) as (v & Hv & Hvc). cbn.
    by rewrite (lookup_nth_default _ _ _ Hv). }
  pose proof (mean_constant c column Hcne Hall) as Hmean.
  pose proof (var_constant c column Hcne Hall) as Hvar.
  unfold sklearn.fit, sklearn.check_array.
  destruct X as [|r X]; [done|].
  pose proof Hrect as Hrect'. apply Forall_cons in Hrect' as [Hr _].
  cbn [sklearn.n_samples sklearn.n_features length Nat.eqb orb].
  destruct (Nat.eqb_spec (length r) 0) as [E|_]; [lia|].
  cbn [bind ret]. eexists. split; [reflexivity|].
  cbn [sklearn.mean_ sklearn.var_ sklearn.scale_].
  rewrite !list_lookup_fmap, Hcol. cbn [fmap option_fmap option_map].
  split; [by exists (sklearn.var column)|].
  split.
  { unfold sklearn.handle_zeros_in_scale.
    by rewrite (proj2 (Qeq_bool_iff _ _) Hvar). }
  split; [by exists (sklearn.mean column)|].
  intros x xj Hx Hxj. unfold sklearn.transform_row.
  cbn [sklearn.mean_ sklearn.scale_].
  rewrite !lookup_zip_with, Hxj, !list_lookup_fmap, Hcol.
  cbn [fmap option_fmap option_map mbind option_bind].
  unfold sklearn.handle_zeros_in_scale.
  rewrite (proj2 (Qeq_bool_iff _ _) Hvar).
  eexists. split; [reflexivity|].
  split; [rewrite Hmean; field|].
  intros Hxc. rewrite Hmean, Hxc. field.
Qed.
End scaler_facts.

(** The statement of C8 at a fit set of two rows with the constant 3 in
    column 0. *)
Lemma constant_feature_scaled_by_one_witness :
  [[3; 1; 2; 5]; [3; 4; 1; 7]] <> ([] : matrix) /\
  rectangular 4 [[3; 1; 2; 5]; [3; 4; 1; 7]] /\
  exists sc, @sklearn.fit Examples.stub_sklearn [[3; 1; 2; 5]; [3; 4; 1; 7]] = inr sc
             /\ sklearn.scale_ sc !! 0%nat = Some 1.
Proof.
  assert (Hrect : rectangular 4 [[3; 1; 2; 5]; [3; 4; 1; 7]])
    by (repeat constructor).
  split; [discriminate|]. split; [exact Hrect|].
  destruct (@constant_feature_scaled_by_one Examples.stub_sklearn
              [[3; 1; 2; 5]; [3; 4; 1; 7]] 4 0 3 ltac:(discriminate) Hrect
              ltac:(lia))
    as (sc & Hfit & _ & Hscale & _).
  - intros row Hin. exists 3. split; [|reflexivity].
    apply list_elem_of_In in Hin. simpl in Hin.
    destruct Hin as [<- | [<- | []]]; reflexivity.
  - exists sc. split; [exact Hfit | exact Hscale].
Defined.

(** C8 as stated fails: feature 0 is 3 in both rows of the fit set; the
    scaler stores the scale factor 1 for it, not 0, and the input with 5 in
    that place is transformed to 5 - 3 = 2, not to 0. *)
Lemma constant_feature_counterexample :
  exists sc row z,
    @sklearn.fit Examples.stub_sklearn [[3; 1; 2; 5]; [3; 4; 1; 7]] = inr sc
    /\ sklearn.scale_ sc !! 0%nat = Some 1
    /\ sklearn.transform sc [[5; 1; 2; 5]] = inr [row]
    /\ row !! 0%nat = Some z
    /\ z == 2 /\ ~ z == 0.
Proof.
  eexists _, _, _. split; [vm_compute; reflexivity|].
  split; [vm_compute; reflexivity|].
  split; [vm_compute; reflexivity|].
  split; [reflexivity|].
  split; [reflexivity | discriminate].
Qed.


(** * Training *)

Lemma take_rows_all {A} (P : A -> Prop) (idx : list nat) (X : list A) :
  Forall (fun i => (i < length X)%nat) idx -> Forall P X ->
  length (sklearn.take_rows idx X) = length idx
  /\ Forall P (sklearn.take_rows idx X).
Proof.
  intros Hidx HP. unfold sklearn.take_rows.
  induction Hidx as [|i idx Hi _ [IHl IHP]]; [done|].
  destruct (lookup_lt_is_Some_2 X i Hi) as [row Hrow].
  cbn [omap list_omap]. rewrite Hrow. cbn [length].
  split; [by rewrite <- IHl|].
  constructor; [|done].
  exact (Forall_lookup_1 _ _ _ _ HP Hrow).
Qed.

Lemma n_features_rectangular (d : nat) (X : matrix) :
  X <> [] -> rectangular d X -> sklearn.n_features X = d.
Proof. intros Hne Hrect. destruct X; [done|]. by apply Forall_cons in Hrect as [? _]. Qed.

Section training_facts.
Context `{Sklearn}.

Lemma fit_transform_rectangular (d : nat) (X : matrix) :
  X <> [] -> rectangular d X -> (0 < d)%nat ->
  exists sc,
    sklearn.fit_transform X = inr (sc, map (sklearn.transform_row sc) X)
    /\ sklearn.scaler_n_features_in_ sc = d
    /\ length (sklearn.mean_ sc) = d /\ length (sklearn.scale_ sc) = d
    /\ rectangular d (map (sklearn.transform_row sc) X).
Proof.
  intros Hne Hrect Hd.
  pose proof (transpose_length d X Hne Hrect) as Hcols.
  pose proof (n_features_rectangular d X Hne Hrect) as Hnf.
  unfold sklearn.fit_transform, sklearn.fit, sklearn.transform, sklearn.check_array.
  assert (Hlen : length X <> 0%nat) by (by destruct X).
  unfold sklearn.n_samples. rewrite Hnf.
  destruct (Nat.eqb_spec (length X) 0) as [E|_]; [done|].
  destruct (Nat.eqb_spec d 0) as [E|_]; [lia|].
  cbn [orb bind ret sklearn.scaler_n_features_in_].
  rewrite Hnf.
  destruct (Nat.eqb_spec (length X) 0) as [E|_]; [done|].
  destruct (Nat.eqb_spec d 0) as [E|_]; [lia|].
  cbn [orb bind ret]. rewrite Nat.eqb_refl. cbn [bind ret].
  eexists. split; [reflexivity|].
  cbn [sklearn.scaler_n_features_in_ sklearn.mean_ sklearn.scale_].
  rewrite !length_map, Hcols. do 3 (split; [done|]).
  apply Forall_fmap. eapply Forall_impl; [exact Hrect|].
  intros row Hrow. cbn. unfold sklearn.transform_row.
  cbn [sklearn.mean_ sklearn.scale_].
  rewrite !length_zip_with, !length_map, Hcols, Hrow. lia.
Qed.

Context `{!SklearnLaws}.

Lemma permutation42_bound (n : nat) :
  length (permutation42 n) = n
  /\ Forall (fun i => (i < n)%nat) (permutation42 n).
Proof.
  pose proof (permutation42_perm n) as Hperm. split.
  - rewrite Hperm. apply length_seq.
  - rewrite Hperm. apply Forall_forall. intros i Hi.
    apply elem_of_seq in Hi. lia.
Qed.

(** The split of at least two samples: both parts are non-empty and keep
    the row length. *)
Lemma train_test_split_parts (d : nat) (X : matrix) (y : list Q) :
  rectangular d X -> (2 <= length X)%nat -> length y = length X ->
  exists X_train X_test y_train y_test,
    sklearn.train_test_split X y = inr (X_train, X_test, y_train, y_test)
    /\ X_train <> [] /\ X_test <> []
    /\ rectangular d X_train /\ rectangular d X_test.
Proof.
  intros Hrect Hn Hy.
  unfold sklearn.train_test_split, sklearn.n_samples.
  rewrite Hy, Nat.eqb_refl. cbn [negb].
  set (n := length X) in *.
  assert (Htest : (1 <= (n + 4) / 5 < n)%nat).
  { split.
    - apply Nat.div_le_lower_bound; lia.
    - apply Nat.Div0.div_lt_upper_bound; lia. }
  set (k := ((n + 4) / 5)%nat) in *.
  destruct (Nat.eqb_spec (n - k) 0) as [E|_]; [lia|].
  destruct (permutation42_bound n) as [Hlen Hall].
  exists (sklearn.take_rows (take (n - k) (drop k (permutation42 n))) X),
    (sklearn.take_rows (take k (permutation42 n)) X),
    (sklearn.take_rows (take (n - k) (drop k (permutation42 n))) y),
    (sklearn.take_rows (take k (permutation42 n)) y).
  split; [reflexivity|].
  assert (Htr : Forall (fun i => (i < length X)%nat)
                  (take (n - k) (drop k (permutation42 n))))
    by (by apply Forall_take, Forall_drop).
  assert (Hte : Forall (fun i => (i < length X)%nat)
                  (take k (permutation42 n)))
    by (by apply Forall_take).
  destruct (take_rows_all (fun row => length row = d) _ X Htr Hrect)
    as [Hl1 Hr1].
  destruct (take_rows_all (fun row => length row = d) _ X Hte Hrect)
    as [Hl2 Hr2].
  rewrite length_take, length_drop, Hlen in Hl1.
  rewrite length_take, Hlen in Hl2.
  split; [intros E; rewrite E, length_nil in Hl1; lia|].
  split; [intros E; rewrite E, length_nil in Hl2; lia|].
  done.
Qed.

Lemma fit_transform_length (X Xs : matrix) (sc : sklearn.StandardScaler) :
  sklearn.fit_transform X = inr (sc, Xs) -> length Xs = length X.
Proof.
  unfold sklearn.fit_transform, sklearn.fit, sklearn.transform.
  destruct (sklearn.check_array X) as [e|X'] eqn:E; [done|].
  assert (X' = X) as ->.
  { unfold sklearn.check_array in E.
    destruct (_ || _)%bool; [done | by injection E]. }
  cbn [bind ret sklearn.scaler_n_features_in_].
  destruct (_ =? _)%nat; [|done].
  cbn [bind ret]. intros [= <- <-]. by rewrite length_map.
Qed.

(** C7, as amended.  [train_model] has no check of its own on the size of
    the training set or on the variance of the targets.  With fewer than 2
    samples it fails inside the libraries (an empty array, or an empty train
    part of the split): it returns [None], which Train reports as its
    general failure, and it stores nothing.  With 2 samples or more it
    trains, stores the regressor and the scaler and returns a score,
    whatever the targets are, constant targets included. *)
Theorem train_model_without_data_check (X : matrix) (y : list Q)
    (model_name : string) (fs : filesystem) :
  ((length X < 2)%nat -> train_model X y model_name fs = (None, fs))
  /\ (forall d, (0 < d)%nat -> rectangular d X ->
        (2 <= length X)%nat -> length y = length X ->
        exists score model scaler,
          train_model X y model_name fs
          = (Some score,
             joblib.dump (PyScaler scaler) (scaler_path_of model_name)
               (joblib.dump (PyForest model) (model_path_of model_name) fs))
          /\ fitted_pair d model scaler).
Proof.
  split.
  - intros Hlen. unfold train_model.
    destruct (sklearn.fit_transform X) as [e|[sc Xs]] eqn:Efit; [done|].
    apply fit_transform_length in Efit.
    cbn [bind ret fst snd].
    unfold sklearn.train_test_split, sklearn.n_samples. rewrite Efit.
    destruct (length X =? length y)%nat; [|done]. cbn [negb].
    destruct X as [|r [|r' X]]; [done | done | cbn in Hlen; lia].
  - intros d Hd Hrect Hn Hy.
    assert (Hne : X <> []) by (intros ->; cbn in Hn; lia).
    destruct (fit_transform_rectangular d X Hne Hrect Hd)
      as (sc & Hfit & Hsc & Hmean & Hscale & Hrect').
    destruct (train_test_split_parts d (map (sklearn.transform_row sc) X) y Hrect')
      as (X_train & X_test & y_train & y_test & Hsplit & Htr & Hte & Hrtr & Hrte).
    { by rewrite length_map. }
    { by rewrite length_map. }
    unfold train_model. rewrite Hfit. cbn [bind ret fst snd]. rewrite Hsplit.
    cbn [bind ret].
    set (model := fit_forest42 X_train y_train).
    assert (Hmodel : n_features_in_ model = d).
    { subst model. rewrite fit_forest42_features.
      by apply n_features_rectangular. }
    destruct X_test as [|row X_test]; [done|].
    apply Forall_cons in Hrte as [Hrow _].
    unfold sklearn.score.
    rewrite predict_cons by (rewrite ?Hmodel, ?Hrow; lia).
    cbn [bind ret].
    eexists _, model, sc. split; [reflexivity|]. by constructor.
Qed.
End training_facts.

Lemma stub_sklearn_laws : @SklearnLaws Examples.stub_sklearn.
Proof. split; [intros n; reflexivity | intros X y; reflexivity]. Qed.

(** The statement of C7 at a training set of one sample. *)
Lemma train_model_without_data_check_witness :
  @SklearnLaws Examples.stub_sklearn /\
  (1 < 2)%nat /\
  @train_model Examples.stub_sklearn [[1; 2; 3; 4]] [5] "yield_model" ∅ = (None, ∅).
Proof.
  split; [exact stub_sklearn_laws|]. split; [lia|].
  destruct (@train_model_without_data_check Examples.stub_sklearn stub_sklearn_laws
              [[1; 2; 3; 4]] [5] "yield_model" ∅) as [Hsmall _].
  apply Hsmall. cbn. lia.
Defined.

(** C7 as stated fails: six samples whose targets are all 5 (no variance)
    are trained on; the score 1 is returned and both artifacts are stored. *)
Lemma constant_targets_counterexample :
  let X := [[1; 2; 3; 4]; [1; 3; 4; 5]; [2; 2; 3; 4];
            [2; 3; 4; 5]; [3; 2; 3; 4]; [3; 3; 4; 5]] in
  let y := [5; 5; 5; 5; 5; 5] in
  let result := @train_model Examples.stub_sklearn X y "yield_model" ∅ in
  sklearn.var y == 0
  /\ result.1 = Some (Finite 1)
  /\ is_Some (result.2 !! model_path_of "yield_model")
  /\ is_Some (result.2 !! scaler_path_of "yield_model").
Proof.
  split; [reflexivity|].
  split; [vm_compute; reflexivity|].
  split; vm_compute; eauto.
Qed.


(** * The two writes of a training run *)

Lemma string_app_inv_head (s a b : string) : s +:+ a = s +:+ b -> a = b.
Proof.
  induction s as [|ch s IH]; [done|].
  cbn. intros [= E]. by apply IH.
Qed.

Lemma starts_with_slash_app (model_name a b : string) :
  os_path.starts_with_slash a = false -> os_path.starts_with_slash b = false ->
  os_path.starts_with_slash (model_name +:+ a)
  = os_path.starts_with_slash (model_name +:+ b).
Proof.
  intros Ha Hb. destruct model_name as [|ch s]; [|done].
  change ("" +:+ a) with a. change ("" +:+ b) with b. by rewrite Ha, Hb.
Qed.

(** The regressor and the scaler of a name are stored in different files. *)
Lemma model_path_ne_scaler_path (model_name : string) :
  model_path_of model_name <> scaler_path_of model_name.
Proof.
  unfold model_path_of, scaler_path_of, os_path.join, MODEL_DIR.
  rewrite (starts_with_slash_app model_name ".joblib" "_scaler.joblib") by done.
  destruct (os_path.starts_with_slash _).
  - intros E. by apply string_app_inv_head in E.
  - cbn [String.eqb os_path.ends_with_slash orb].
    change (String.eqb "models" "") with false.
    change (os_path.ends_with_slash "models") with false.
    cbn [orb]. intros E.
    apply string_app_inv_head, string_app_inv_head, string_app_inv_head in E.
    done.
Qed.

Lemma six_samples_rectangular : rectangular 4 Examples.six_samples.
Proof. repeat constructor. Qed.

Section save_facts.
Context `{Sklearn}.

(** The two embeddings of [train_model] agree: the same result, and the
    storage that [train_model] leaves is the last of the recorded ones. *)
Lemma train_model_states_last (X : matrix) (y : list Q) (model_name : string)
    (fs : filesystem) :
  train_model X y model_name fs
  = ((train_model_states X y model_name fs).1,
     default fs (last (train_model_states X y model_name fs).2)).
Proof.
  unfold train_model, train_model_states.
  destruct (try! fitted := sklearn.fit_transform X in _)
    as [e|[sc [[[X_train X_test] y_train] y_test]]]; [done|].
  by destruct (sklearn.score _ _ _).
Qed.

Context `{!SklearnLaws}.

(** A training on two samples or more, in full: the scaler is the one fitted
    on the features, the regressor is the forest fitted on the train part of
    the split of the scaled features, the score is that of the forest on the
    test part, and the two are written one after the other. *)
Lemma train_model_run (d : nat) (X : matrix) (y : list Q)
    (model_name : string) (fs : filesystem) :
  (0 < d)%nat -> rectangular d X -> (2 <= length X)%nat -> length y = length X ->
  exists scaler X_scaled X_train X_test y_train y_test score,
    sklearn.fit_transform X = inr (scaler, X_scaled)
    /\ sklearn.train_test_split X_scaled y = inr (X_train, X_test, y_train, y_test)
    /\ sklearn.score (fit_forest42 X_train y_train) X_test y_test = inr score
    /\ fitted_pair d (fit_forest42 X_train y_train) scaler
    /\ train_model_states X y model_name fs
       = (Some score,
          [fs;
           joblib.dump (PyForest (fit_forest42 X_train y_train))
             (model_path_of model_name) fs;
           joblib.dump (PyScaler scaler) (scaler_path_of model_name)
             (joblib.dump (PyForest (fit_forest42 X_train y_train))
                (model_path_of model_name) fs)])
    /\ train_model X y model_name fs
       = (Some score,
          joblib.dump (PyScaler scaler) (scaler_path_of model_name)
            (joblib.dump (PyForest (fit_forest42 X_train y_train))
               (model_path_of model_name) fs)).
Proof.
  intros Hd Hrect Hn Hy.
  assert (Hne : X <> []) by (intros ->; cbn in Hn; lia).
  destruct (fit_transform_rectangular d X Hne Hrect Hd)
    as (sc & Hfit & Hsc & Hmean & Hscale & Hrect').
  destruct (train_test_split_parts d (map (sklearn.transform_row sc) X) y Hrect')
    as (X_train & X_test & y_train & y_test & Hsplit & Htr & Hte & Hrtr & Hrte).
  { by rewrite length_map. }
  { by rewrite length_map. }
  set (model := fit_forest42 X_train y_train).
  assert (Hmodel : n_features_in_ model = d).
  { subst model. rewrite fit_forest42_features.
    by apply n_features_rectangular. }
  assert (Hscore : exists score, sklearn.score model X_test y_test = inr score).
  { destruct X_test as [|row X_test]; [done|].
    apply Forall_cons in Hrte as [Hrow _].
    unfold sklearn.score.
    rewrite predict_cons by (rewrite ?Hmodel, ?Hrow; lia).
    cbn [bind ret]. by eexists. }
  destruct Hscore as [score Hscore].
  exists sc, (map (sklearn.transform_row sc) X), X_train, X_test, y_train,
    y_test, score.
  split; [done|]. split; [done|]. split; [done|].
  split; [by constructor|].
  unfold train_model_states, train_model.
  rewrite Hfit. cbn [bind ret fst snd]. rewrite Hsplit. cbn [bind ret].
  fold model. by rewrite Hscore.
Qed.

(** C9, as amended.  A training run stores the regressor and then the
    scaler, each with a write of its own and with nothing that holds
    readers back in between.  For a training that succeeds while a complete
    pair is already stored under the name, [train_model] passes through
    three storages: the one it finds, in which a reader loads the old pair;
    the one after the first write, in which a reader loads the new regressor
    together with the old scaler; and the one after the second write, which
    is the storage [train_model] leaves and in which a reader loads the new
    pair.  The storage in between is the one found with nothing but the
    regressor file changed, to what [train_model] leaves in that file. *)
Theorem train_model_states_observed (d : nat) (X : matrix) (y : list Q)
    (model_name : string) (fs : filesystem) (old_model old_scaler : pyobj) :
  (0 < d)%nat -> rectangular d X -> (2 <= length X)%nat -> length y = length X ->
  load_model fs model_name = (Some old_model, Some old_scaler) ->
  exists score model scaler fs1 fs2,
    train_model_states X y model_name fs = (Some score, [fs; fs1; fs2])
    /\ train_model X y model_name fs = (Some score, fs2)
    /\ load_model fs1 model_name = (Some (PyForest model), Some old_scaler)
    /\ load_model fs2 model_name = (Some (PyForest model), Some (PyScaler scaler))
    /\ fs1 !! model_path_of model_name
       = (train_model X y model_name fs).2 !! model_path_of model_name
    /\ (forall path, path <> model_path_of model_name -> fs1 !! path = fs !! path)
    /\ (forall X' y' n' fs',
          train_model X' y' n' fs'
          = ((train_model_states X' y' n' fs').1,
             default fs' (last (train_model_states X' y' n' fs').2))).
Proof.
  intros Hd Hrect Hn Hy Hold.
  pose proof (model_path_ne_scaler_path model_name) as Hne.
  destruct (load_model_cases fs model_name)
    as [[Hl _] | (m0 & s0 & Hl & Hm0 & Hs0)]; [congruence|].
  rewrite Hl in Hold. injection Hold as -> ->.
  destruct (train_model_run d X y model_name fs Hd Hrect Hn Hy)
    as (sc & Xs & X_train & X_test & y_train & y_test & score
        & _ & _ & _ & _ & Hstates & Htrain).
  eexists score, (fit_forest42 X_train y_train), sc, _, _.
  split; [exact Hstates|]. split; [exact Htrain|].
  rewrite Htrain. cbn [snd].
  unfold load_model, os_path.exists_, joblib.load, joblib.dump.
  split; [|split; [|split; [|split]]].
  - rewrite lookup_insert_eq, lookup_insert_ne, Hs0 by done.
    rewrite !bool_decide_eq_true_2 by eauto. done.
  - rewrite lookup_insert_eq, (lookup_insert_ne _ (scaler_path_of model_name))
      by done.
    rewrite lookup_insert_eq.
    rewrite !bool_decide_eq_true_2 by eauto. done.
  - by rewrite (lookup_insert_ne _ (scaler_path_of model_name)), !lookup_insert_eq.
  - intros path Hpath. by rewrite lookup_insert_ne.
  - intros X' y' n' fs'. apply train_model_states_last.
Qed.
End save_facts.

(** The statement of C9 at a training on six samples over the stored pair
    [xor_forest], [unit_scaler]. *)
Lemma train_model_states_observed_witness :
  @SklearnLaws Examples.stub_sklearn /\
  rectangular 4 Examples.six_samples /\
  load_model Examples.fs_xor DEFAULT_MODEL
    = (Some (PyForest Examples.xor_forest), Some (PyScaler Examples.unit_scaler)) /\
  exists score model fs1 fs2,
    @train_model_states Examples.stub_sklearn Examples.six_samples
      Examples.six_targets DEFAULT_MODEL Examples.fs_xor
    = (Some score, [Examples.fs_xor; fs1; fs2])
    /\ load_model fs1 DEFAULT_MODEL
       = (Some (PyForest model), Some (PyScaler Examples.unit_scaler)).
Proof.
  assert (Hold : load_model Examples.fs_xor DEFAULT_MODEL
    = (Some (PyForest Examples.xor_forest), Some (PyScaler Examples.unit_scaler)))
    by (vm_compute; reflexivity).
  split; [exact stub_sklearn_laws|]. split; [exact six_samples_rectangular|].
  split; [exact Hold|].
  destruct (@train_model_states_observed Examples.stub_sklearn stub_sklearn_laws
              4 Examples.six_samples Examples.six_targets DEFAULT_MODEL
              Examples.fs_xor _ _ ltac:(lia) six_samples_rectangular
              ltac:(cbn; lia) eq_refl Hold)
    as (score & model & scaler & fs1 & fs2 & Hstates & _ & Hmix & _).
  exists score, model, fs1, fs2. split; [exact Hstates | exact Hmix].
Defined.

(** C9 as stated fails: with the pair ([xor_forest], [unit_scaler]) stored,
    [train_model] on six samples passes, after its first write, through a
    storage in which [load_model] returns the regressor of the new run with
    [unit_scaler], the scaler of the old one: neither the old pair, nor the
    pair that [load_model] returns once [train_model] has finished. *)
Lemma torn_read_counterexample :
  exists fs1 new_model new_scaler,
    (@train_model_states Examples.stub_sklearn Examples.six_samples
       Examples.six_targets DEFAULT_MODEL Examples.fs_xor).2 !! 1%nat = Some fs1
    /\ load_model Examples.fs_xor DEFAULT_MODEL
       = (Some (PyForest Examples.xor_forest), Some (PyScaler Examples.unit_scaler))
    /\ load_model fs1 DEFAULT_MODEL
       = (Some (PyForest new_model), Some (PyScaler Examples.unit_scaler))
    /\ load_model (@train_model Examples.stub_sklearn Examples.six_samples
                     Examples.six_targets DEFAULT_MODEL Examples.fs_xor).2
         DEFAULT_MODEL
       = (Some (PyForest new_model), Some (PyScaler new_scaler))
    /\ new_model <> Examples.xor_forest
    /\ new_scaler <> Examples.unit_scaler.
Proof.
  eexists _, _, _. split; [vm_compute; reflexivity|].
  split; [vm_compute; reflexivity|].
  split; [vm_compute; reflexivity|].
  split; [vm_compute; reflexivity|].
  split; discriminate.
Qed.


(** * Further properties of the service *)

(** ** Storing and loading *)

(** Paths of one name with different suffixes are different files. *)
Lemma join_suffix_inj (model_name a b : string) :
  os_path.starts_with_slash a = false -> os_path.starts_with_slash b = false ->
  os_path.join MODEL_DIR (model_name +:+ a) = os_path.join MODEL_DIR (model_name +:+ b) ->
  a = b.
Proof.
  intros Ha Hb. unfold os_path.join, MODEL_DIR.
  rewrite (starts_with_slash_app model_name a b) by done.
  destruct (os_path.starts_with_slash (model_name +:+ b)).
  - apply string_app_inv_head.
  - change (String.eqb "models" "") with false.
    change (os_path.ends_with_slash "models") with false.
    cbn [orb]. intros E.
    by apply string_app_inv_head, string_app_inv_head, string_app_inv_head in E.
Qed.

Lemma string_app_assoc (a b c : string) : (a +:+ b) +:+ c = a +:+ (b +:+ c).
Proof.
  induction a as [|ch a IH]; [done|].
  change (String ch ((a +:+ b) +:+ c) = String ch (a +:+ (b +:+ c))).
  by rewrite IH.
Qed.

(** What [load_model] returns once both files hold a dump. *)
Lemma load_model_stored (fs : filesystem) (model_name : string) (m s : pyobj) :
  fs !! model_path_of model_name = Some (Pickle m) ->
  fs !! scaler_path_of model_name = Some (Pickle s) ->
  load_model fs model_name = (Some m, Some s).
Proof.
  intros Hm Hs. unfold load_model, os_path.exists_, joblib.load.
  rewrite Hm, Hs. rewrite !bool_decide_eq_true_2 by eauto. done.
Qed.

(** The result of [train_model]: a value and a rewriting of the storage,
    neither of which depends on the storage the call finds. *)
Lemma train_model_shape `{Sklearn} (X : matrix) (y : list Q) (model_name : string) :
  (forall fs, train_model X y model_name fs = (None, fs))
  \/ exists r model scaler, forall fs,
       train_model X y model_name fs
       = (r, joblib.dump (PyScaler scaler) (scaler_path_of model_name)
               (joblib.dump (PyForest model) (model_path_of model_name) fs)).
Proof.
  unfold train_model.
  destruct (try! fitted := sklearn.fit_transform X in _)
    as [e|[sc [[[X_train X_test] y_train] y_test]]]; [by left|].
  right. destruct (sklearn.score _ _ _) as [e|sco]; by eexists _, _, _.
Qed.

Section storage_facts.
Context `{Sklearn}.

(** X1.  [train_model] writes to the two files of its model name and to no
    other: every other path holds after the call what it held before, whether
    the training succeeded or not. *)
Theorem train_model_frame (X : matrix) (y : list Q) (model_name : string)
    (fs : filesystem) (path : string) :
  path <> model_path_of model_name -> path <> scaler_path_of model_name ->
  (train_model X y model_name fs).2 !! path = fs !! path.
Proof.
  intros Hm Hs.
  destruct (train_model_shape X y model_name) as [E | (r & m & s & E)];
    rewrite E; [done|].
  cbn [snd]. unfold joblib.dump.
  by rewrite !lookup_insert_ne.
Qed.

(** Training again on the same data rewrites the same files with the same
    contents. *)
Lemma train_model_again (X : matrix) (y : list Q) (model_name : string)
    (fs : filesystem) :
  train_model X y model_name (train_model X y model_name fs).2
  = train_model X y model_name fs.
Proof.
  pose proof (model_path_ne_scaler_path model_name) as Hne.
  destruct (train_model_shape X y model_name) as [E | (r & m & s & E)].
  - by rewrite !E.
  - rewrite !E. cbn [snd]. unfold joblib.dump. f_equal.
    rewrite (insert_insert_ne _ (model_path_of model_name)) by done.
    rewrite (insert_insert_eq _ (scaler_path_of model_name)).
    by rewrite (insert_insert_eq _ (model_path_of model_name)).
Qed.

Context `{!SklearnLaws}.

(** Training on two samples or more stores a pair for the features of the
    data and returns a score (the case of [train_model] that succeeds). *)
Lemma train_model_stores (d : nat) (X : matrix) (y : list Q)
    (model_name : string) (fs : filesystem) :
  (0 < d)%nat -> rectangular d X -> (2 <= length X)%nat -> length y = length X ->
  exists score model scaler,
    train_model X y model_name fs
    = (Some score,
       joblib.dump (PyScaler scaler) (scaler_path_of model_name)
         (joblib.dump (PyForest model) (model_path_of model_name) fs))
    /\ fitted_pair d model scaler.
Proof.
  intros Hd Hrect Hn Hy.
  assert (Hne : X <> []) by (intros ->; cbn in Hn; lia).
  destruct (fit_transform_rectangular d X Hne Hrect Hd)
    as (sc & Hfit & Hsc & Hmean & Hscale & Hrect').
  destruct (train_test_split_parts d (map (sklearn.transform_row sc) X) y Hrect')
    as (X_train & X_test & y_train & y_test & Hsplit & Htr & Hte & Hrtr & Hrte).
  { by rewrite length_map. }
  { by rewrite length_map. }
  unfold train_model. rewrite Hfit. cbn [bind ret fst snd]. rewrite Hsplit.
  cbn [bind ret].
  set (model := fit_forest42 X_train y_train).
  assert (Hmodel : n_features_in_ model = d).
  { subst model. rewrite fit_forest42_features.
    by apply n_features_rectangular. }
  destruct X_test as [|row X_test]; [done|].
  apply Forall_cons in Hrte as [Hrow _].
  unfold sklearn.score.
  rewrite predict_cons by (rewrite ?Hmodel, ?Hrow; lia).
  cbn [bind ret].
  eexists _, model, sc. split; [reflexivity|]. by constructor.
Qed.

Lemma load_model_after_dumps (fs : filesystem) (model_name : string)
    (m : RandomForestRegressor) (sc : sklearn.StandardScaler) :
  load_model (joblib.dump (PyScaler sc) (scaler_path_of model_name)
                (joblib.dump (PyForest m) (model_path_of model_name) fs))
    model_name
  = (Some (PyForest m), Some (PyScaler sc)).
Proof.
  pose proof (model_path_ne_scaler_path model_name) as Hne.
  apply load_model_stored; unfold joblib.dump.
  - by rewrite lookup_insert_ne, lookup_insert_eq.
  - by rewrite lookup_insert_eq.
Qed.

(** X2.  What a successful training stores is what [load_model] returns
    for that name afterwards, and it is the outcome of that run: the scaler
    is the one fitted on the features given, the regressor is the forest
    fitted on the train part of the split of the scaled features, and the
    score returned is that of this forest on the test part.  Both are for the
    number of features of the training data. *)
Theorem train_model_then_load (d : nat) (X : matrix) (y : list Q)
    (model_name : string) (fs : filesystem) :
  (0 < d)%nat -> rectangular d X -> (2 <= length X)%nat -> length y = length X ->
  exists scaler X_scaled X_train X_test y_train y_test score,
    sklearn.fit_transform X = inr (scaler, X_scaled)
    /\ sklearn.train_test_split X_scaled y = inr (X_train, X_test, y_train, y_test)
    /\ sklearn.score (fit_forest42 X_train y_train) X_test y_test = inr score
    /\ (train_model X y model_name fs).1 = Some score
    /\ load_model (train_model X y model_name fs).2 model_name
       = (Some (PyForest (fit_forest42 X_train y_train)), Some (PyScaler scaler))
    /\ fitted_pair d (fit_forest42 X_train y_train) scaler.
Proof.
  intros Hd Hrect Hn Hy.
  destruct (train_model_run d X y model_name fs Hd Hrect Hn Hy)
    as (sc & Xs & X_train & X_test & y_train & y_test & score
        & Hfit & Hsplit & Hscore & Hpair & _ & Htrain).
  exists sc, Xs, X_train, X_test, y_train, y_test, score.
  rewrite Htrain. cbn [fst snd].
  do 4 (split; [done|]). split; [apply load_model_after_dumps | done].
Qed.
End storage_facts.

(** X3.  The regressor file of the name [n ++ "_scaler"] is the scaler file of
    the name [n].  So after a model has been stored under [n], a successful
    training under [n ++ "_scaler"] leaves a regressor where the scaler of [n]
    was: [load_model n] returns it in the scaler's place, and for the default
    name Predict then fails in [scaler.transform] with an [AttributeError],
    answered with status 500. *)
Theorem scaler_suffix_collision `{Sklearn} (n : string) (X : matrix) (y : list Q)
    (fs fs' : filesystem) (old_model old_scaler : pyobj) (score : pyfloat)
    (data_features : list Q) :
  load_model fs n = (Some old_model, Some old_scaler) ->
  train_model X y (n +:+ "_scaler") fs = (Some score, fs') ->
  model_path_of (n +:+ "_scaler") = scaler_path_of n
  /\ exists model,
       load_model fs' n = (Some old_model, Some (PyForest model))
       /\ (n = DEFAULT_MODEL ->
           predict fs' (Some data_features)
           = Failure 500 (Str (AttributeError "transform"))).
Proof.
  intros Hold Htrain.
  assert (Hpath : model_path_of (n +:+ "_scaler") = scaler_path_of n).
  { unfold model_path_of, scaler_path_of. by rewrite string_app_assoc. }
  split; [done|].
  destruct (load_model_cases fs n)
    as [[Hl _] | (m0 & s0 & Hl & Hm0 & Hs0)]; [congruence|].
  rewrite Hl in Hold. injection Hold as -> ->.
  destruct (train_model_shape X y (n +:+ "_scaler")) as [E | (r & m & s & E)];
    rewrite E in Htrain; [done|].
  injection Htrain as -> <-.
  exists m.
  assert (Hload : load_model
            (joblib.dump (PyScaler s) (scaler_path_of (n +:+ "_scaler"))
               (joblib.dump (PyForest m) (model_path_of (n +:+ "_scaler")) fs)) n
          = (Some old_model, Some (PyForest m))).
  { apply load_model_stored; unfold joblib.dump.
    - rewrite !lookup_insert_ne; [done | |].
      + rewrite Hpath. intros E'. symmetry in E'.
        by apply model_path_ne_scaler_path in E'.
      + unfold scaler_path_of, model_path_of. rewrite string_app_assoc.
        intros E'. by apply join_suffix_inj in E'.
    - rewrite lookup_insert_ne, Hpath, lookup_insert_eq; [done|].
      unfold scaler_path_of. rewrite string_app_assoc.
      intros E'. by apply join_suffix_inj in E'. }
  split; [exact Hload|].
  intros ->. unfold predict. by rewrite Hload.
Qed.

(** X4.  An artifact that is there but cannot be read is taken for a missing
    model: [load_model] catches the error and returns [(None, None)], and for
    the default name Predict and Optimize answer 404, as they do when no model
    was ever trained. *)
Theorem unreadable_artifact_not_found (fs : filesystem) (model_name : string)
    (data_features : list Q) (ranges : gmap string (list Q)) :
  fs !! model_path_of model_name = Some Corrupt
  \/ fs !! scaler_path_of model_name = Some Corrupt ->
  load_model fs model_name = (None, None)
  /\ (model_name = DEFAULT_MODEL ->
      predict fs (Some data_features)
        = Failure 404 (Text "Model not found. Please train the model first.")
      /\ optimize fs (Some ranges)
        = Failure 404 (Text "Model not found. Please train the model first.")).
Proof.
  intros Hcorrupt.
  assert (Hload : load_model fs model_name = (None, None)).
  { destruct (load_model_cases fs model_name)
      as [[Hl _] | (m & s & _ & Hm & Hs)]; [done|].
    destruct Hcorrupt; congruence. }
  split; [done|]. intros ->.
  unfold predict, optimize. by rewrite Hload.
Qed.


(** ** The generated data *)

Section generated_data.
Context `{NumpyRandom}.

(** [np.random.rand(n, m)] takes [n * m] draws. *)
Lemma np_random_rand_state (n m : nat) (g : rng_state) :
  (np_random_rand n m g).2 = (draws (n * m) g).2.
Proof.
  revert g. induction n as [|n IH]; intros g; [done|].
  cbn [np_random_rand]. change (S n * m)%nat with (m + n * m)%nat.
  rewrite draws_app. cbn [snd].
  destruct (draws m g) as [row g1]. cbn [snd].
  rewrite <- IH. by destruct (np_random_rand n m g1).
Qed.

(** The rows of the generated data, one by one: the four draws of row [i],
    the features made of them, and the target. *)
Lemma generate_sample_data_rows (g : rng_state) :
  exists X Y,
    (generate_sample_data g).1 = (X, Y)
    /\ length X = 100%nat /\ length Y = 100%nat
    /\ forall i, (i < 100)%nat ->
         exists u0 u1 u2 u3,
           (draws 400 (np_random_seed 42)).1 !! (i * 4)%nat = Some u0
           /\ (draws 400 (np_random_seed 42)).1 !! (i * 4 + 1)%nat = Some u1
           /\ (draws 400 (np_random_seed 42)).1 !! (i * 4 + 2)%nat = Some u2
           /\ (draws 400 (np_random_seed 42)).1 !! (i * 4 + 3)%nat = Some u3
           /\ X !! i = Some [u0 * 100 + 50; u1 * 9 + 1; u2 * 1.9 + 0.1; u3 * 23 + 1]
           /\ Y !! i = Some (np.clip
                ((0.4 * (u0 * 100 + 50) + 0.3 * (u1 * 9 + 1) ^ 2
                  + 0.2 * (u2 * 1.9 + 0.1) + 0.1 * (u3 * 23 + 1)) / 100 * 100)
                0 100).
Proof.
  unfold generate_sample_data.
  pose proof (np_random_rand_length 100 4 (np_random_seed 42)) as Hlen.
  pose proof (np_random_rand_rows 100 4 (np_random_seed 42)) as Hrows.
  change (100 * 4)%nat with 400%nat in Hrows.
  destruct (np_random_rand 100 4 (np_random_seed 42)) as [X0 g1].
  cbn [fst snd] in *.
  eexists _, _. split; [reflexivity|].
  unfold set_column. rewrite !length_map. split; [done|]. split; [done|].
  intros i Hi.
  destruct (Hrows i Hi) as (row & Hrow & Hl & Hj).
  destruct row as [|u0 [|u1 [|u2 [|u3 [|]]]]]; try done.
  pose proof (Hj 0%nat ltac:(lia)) as H0. pose proof (Hj 1%nat ltac:(lia)) as H1.
  pose proof (Hj 2%nat ltac:(lia)) as H2. pose proof (Hj 3%nat ltac:(lia)) as H3.
  cbn [lookup list_lookup] in H0, H1, H2, H3.
  rewrite Nat.add_0_r in H0.
  exists u0, u1, u2, u3.
  do 4 (split; [done|]).
  split; rewrite !list_lookup_fmap, Hrow; reflexivity.
Qed.

(** X5.  [generate_sample_data] reseeds the global generator and takes 400
    draws from it: whatever state the generator was in before the call, it is
    afterwards in the state that 400 draws from seed 42 lead to. *)
Theorem generate_sample_data_leaves_state (g : rng_state) :
  (generate_sample_data g).2 = (draws 400 (np_random_seed 42)).2.
Proof.
  unfold generate_sample_data.
  pose proof (np_random_rand_state 100 4 (np_random_seed 42)) as Hstate.
  change (100 * 4)%nat with 400%nat in Hstate.
  by destruct (np_random_rand 100 4 (np_random_seed 42)).
Qed.

(** The generated features are 100 rows of 4 entries, with 100 targets. *)
Lemma generate_sample_data_rectangular (g : rng_state) :
  exists X Y,
    (generate_sample_data g).1 = (X, Y)
    /\ rectangular 4 X /\ length X = 100%nat /\ length Y = 100%nat.
Proof.
  destruct (generate_sample_data_rows g) as (X & Y & E & HX & HY & Hrows).
  exists X, Y. split; [done|]. split; [|done].
  apply Forall_lookup. intros i row Hi.
  destruct (Hrows i) as (u0 & u1 & u2 & u3 & _ & _ & _ & _ & Hrow & _).
  { apply lookup_lt_Some in Hi. lia. }
  rewrite Hrow in Hi. by injection Hi as <-.
Qed.

Hypothesis uniform : forall s, 0 <= (random_sample s).1 < 1.

(** X6.  On the generated data the clamp to [0, 100] never acts: every
    target is the plain value [0.4 t + 0.3 p^2 + 0.2 c + 0.1 r] of its row,
    and lies between 20.42 and 92.8. *)
Theorem generated_yield_unclamped (g : rng_state) :
  exists X Y,
    (generate_sample_data g).1 = (X, Y)
    /\ forall i row y, X !! i = Some row -> Y !! i = Some y ->
         y == 0.4 * col 0 row + 0.3 * col 1 row ^ 2 + 0.2 * col 2 row
              + 0.1 * col 3 row
         /\ 20.42 <= y <= 92.8.
Proof.
  destruct (generate_sample_data_rows g) as (X & Y & E & HX & HY & Hrows).
  exists X, Y. split; [done|].
  intros i row y Hrow Hy.
  destruct (Hrows i) as (u0 & u1 & u2 & u3 & H0 & H1 & H2 & H3 & Hrow' & Hy').
  { apply lookup_lt_Some in Hrow. lia. }
  rewrite Hrow' in Hrow. injection Hrow as <-.
  rewrite Hy' in Hy. injection Hy as <-.
  pose proof (draws_uniform uniform _ _ _ _ H0) as Hu0.
  pose proof (draws_uniform uniform _ _ _ _ H1) as Hu1.
  pose proof (draws_uniform uniform _ _ _ _ H2) as Hu2.
  pose proof (draws_uniform uniform _ _ _ _ H3) as Hu3.
  unfold col. cbn [nth].
  set (t := u0 * 100 + 50). set (p := u1 * 9 + 1).
  set (c := u2 * 1.9 + 0.1). set (r := u3 * 23 + 1).
  assert (Ht : 50 <= t <= 150) by (subst t; lra).
  assert (Hp : 1 <= p <= 10) by (subst p; lra).
  assert (Hc : 0.1 <= c <= 2) by (subst c; lra).
  assert (Hr : 1 <= r <= 24) by (subst r; lra).
  assert (Hp2 : 1 <= p ^ 2 <= 100) by (split; nra).
  set (v := (0.4 * t + 0.3 * p ^ 2 + 0.2 * c + 0.1 * r) / 100 * 100).
  assert (Hv : v == 0.4 * t + 0.3 * p ^ 2 + 0.2 * c + 0.1 * r)
    by (subst v; field).
  assert (Hb : 20.42 <= v <= 92.8) by (rewrite Hv; lra).
  assert (Hclip : np.clip v 0 100 == v).
  { unfold np.clip. rewrite Q.max_l by lra. apply Q.min_l. lra. }
  split; [exact (Qeq_trans _ _ _ Hclip Hv)|].
  destruct Hb as [Hlo Hhi]. split.
  - apply (Qle_trans _ v); [exact Hlo|]. apply Qle_lteq. right. by symmetry.
  - apply (Qle_trans _ v); [|exact Hhi]. apply Qle_lteq. by right.
Qed.
End generated_data.


(** ** Training, then serving *)

(** Predict on four features with the default model loaded. *)
Lemma predict_loaded_four (fs : filesystem) (m : RandomForestRegressor)
    (sc : sklearn.StandardScaler) (t p c r : Q) :
  model_loaded fs m sc ->
  predict fs (Some [t; p; c; r])
  = PredictOk (predicted_yield_at m sc [t; p; c; r])
      (zip feature_names (feature_importances_ m)).
Proof.
  intros [Hload Hfit]. unfold predict. rewrite Hload.
  pose proof (scaled_predictions m sc t p c r [] Hfit) as Hy.
  destruct (scaler_transform (PyScaler sc) [[t; p; c; r]]) as [e|Xs]; [done|].
  cbn [bind] in Hy |- *. rewrite Hy. done.
Qed.

(** With the default model loaded, a request that gives the four ranges is
    answered with a candidate. *)
Lemma optimize_loaded (fs : filesystem) (ranges : gmap string (list Q))
    (m : RandomForestRegressor) (sc : sklearn.StandardScaler)
    (t0 t1 p0 p1 c0 c1 r0 r1 : Q) :
  model_loaded fs m sc ->
  ranges_of ranges t0 t1 p0 p1 c0 c1 r0 r1 ->
  exists b w t p c r,
    optimize fs (Some ranges)
      = OptimizeOk [("温度", t); ("圧力", p); ("触媒量", c); ("反応時間", r)] w
    /\ X_grid_of [np.linspace t0 t1 10; np.linspace p0 p1 10;
                  np.linspace c0 c1 10; np.linspace r0 r1 10] !! b
       = Some [t; p; c; r]
    /\ first_max_at
         (map (predicted_yield_at m sc)
            (X_grid_of [np.linspace t0 t1 10; np.linspace p0 p1 10;
                        np.linspace c0 c1 10; np.linspace r0 r1 10])) b w.
Proof.
  intros Hload Hranges. rewrite X_grid_of_enumeration.
  apply (optimize_run fs ranges m sc); [done | by apply grid_axes_ranges |].
  intros E. pose proof (length_tuples (np.linspace t0 t1 10)
    (np.linspace p0 p1 10) (np.linspace c0 c1 10) (np.linspace r0 r1 10)) as Hlen.
  rewrite E, !linspace_10_length in Hlen. done.
Qed.

(** X7.  The predicted yield that Optimize returns is the prediction that
    Predict gives for the parameters it returns. *)
Theorem optimize_agrees_with_predict (fs : filesystem)
    (ranges : gmap string (list Q))
    (m : RandomForestRegressor) (sc : sklearn.StandardScaler)
    (t0 t1 p0 p1 c0 c1 r0 r1 : Q) :
  model_loaded fs m sc ->
  ranges_of ranges t0 t1 p0 p1 c0 c1 r0 r1 ->
  exists t p c r w,
    optimize fs (Some ranges)
      = OptimizeOk [("温度", t); ("圧力", p); ("触媒量", c); ("反応時間", r)] w
    /\ predict fs (Some [t; p; c; r])
       = PredictOk w (zip feature_names (feature_importances_ m)).
Proof.
  intros Hload Hranges.
  destruct (optimize_loaded fs ranges m sc t0 t1 p0 p1 c0 c1 r0 r1 Hload Hranges)
    as (b & w & t & p & c & r & Hopt & Hrow & Hb & _).
  exists t, p, c, r, w. split; [done|].
  rewrite list_lookup_fmap, Hrow in Hb. injection Hb as <-.
  by apply predict_loaded_four.
Qed.

Lemma default_model_file :
  os_path.join MODEL_DIR "yield_model.joblib" = model_path_of DEFAULT_MODEL.
Proof. reflexivity. Qed.

Section service_facts.
Context `{Sklearn} `{NumpyRandom}.

(** X8.  Train leaves the service as a second Train finds it: called again,
    in whatever state the generator is, it returns the same response and
    leaves the same generator state and the same files. *)
Theorem train_twice (g g2 : rng_state) (fs : filesystem) :
  train g2 (train g fs).2.2 = train g fs.
Proof.
  unfold train.
  change (generate_sample_data g2) with (generate_sample_data g).
  destruct (generate_sample_data g) as [[X y] g'].
  pose proof (train_model_again X y DEFAULT_MODEL fs) as Hagain.
  destruct (train_model X y DEFAULT_MODEL fs) as [score fs'] eqn:E.
  cbn [snd] in Hagain.
  assert (Hfs : (match score with
                 | Some score0 => (TrainOk score0, (g', fs'))
                 | None => (Failure 500 (Text "训练失败"), (g', fs'))
                 end).2.2 = fs') by (by destruct score).
  rewrite Hfs, Hagain. done.
Qed.

(** X9.  The start of the service looks only at the regressor file.  When
    that file is there, nothing is trained and the storage is left as it is;
    if the scaler file is missing, Predict and Optimize go on answering 404
    after the start. *)
Theorem startup_keeps_existing_regressor (g : rng_state) (fs : filesystem)
    (data_features : list Q) (ranges : gmap string (list Q)) :
  is_Some (fs !! model_path_of DEFAULT_MODEL) ->
  startup g fs = (g, fs)
  /\ (fs !! scaler_path_of DEFAULT_MODEL = None ->
      predict (startup g fs).2 (Some data_features)
        = Failure 404 (Text "Model not found. Please train the model first.")
      /\ optimize (startup g fs).2 (Some ranges)
        = Failure 404 (Text "Model not found. Please train the model first.")).
Proof.
  intros Hsome.
  assert (Hstart : startup g fs = (g, fs)).
  { unfold startup. rewrite default_model_file. unfold os_path.exists_.
    by rewrite bool_decide_eq_true_2. }
  split; [done|]. intros Hnone. rewrite Hstart. cbn [snd].
  assert (Hload : load_model fs DEFAULT_MODEL = (None, None)).
  { destruct (load_model_cases fs DEFAULT_MODEL)
      as [[Hl _] | (m & s & _ & _ & Hs)]; [done | congruence]. }
  unfold predict, optimize. by rewrite Hload.
Qed.

Context `{!SklearnLaws}.

(** The default model after a training on the generated data. *)
Lemma train_model_generated (g : rng_state) (fs : filesystem) :
  exists X y score m sc,
    (generate_sample_data g).1 = (X, y)
    /\ (train_model X y DEFAULT_MODEL fs).1 = Some score
    /\ model_loaded (train_model X y DEFAULT_MODEL fs).2 m sc.
Proof.
  destruct (generate_sample_data_rectangular g) as (X & y & E & Hrect & HX & Hy).
  destruct (train_model_stores 4 X y DEFAULT_MODEL fs)
    as (score & m & sc & Et & Hfit); [lia | done | lia | lia |].
  exists X, y, score, m, sc. rewrite Et. cbn [fst snd].
  split; [done|]. split; [done|]. split; [apply load_model_after_dumps | done].
Qed.

(** X10.  After Train, the service serves: Train answers with a score, the
    default model is then loaded complete and for four features, Predict on
    any four numbers answers with the forest's prediction on the scaled
    vector, and Optimize succeeds on any request that gives the four ranges. *)
Theorem train_then_serve (g : rng_state) (fs : filesystem) :
  exists score m sc,
    (train g fs).1 = TrainOk score
    /\ model_loaded (train g fs).2.2 m sc
    /\ (forall t p c r,
          predict (train g fs).2.2 (Some [t; p; c; r])
          = PredictOk (predicted_yield_at m sc [t; p; c; r])
              (zip feature_names (feature_importances_ m)))
    /\ (forall ranges t0 t1 p0 p1 c0 c1 r0 r1,
          ranges_of ranges t0 t1 p0 p1 c0 c1 r0 r1 ->
          success (optimize (train g fs).2.2 (Some ranges)) = true).
Proof.
  destruct (train_model_generated g fs)
    as (X & y & score & m & sc & E & Hscore & Hload).
  unfold train.
  destruct (generate_sample_data g) as [[X' y'] g']. cbn [fst] in E.
  injection E as -> ->.
  destruct (train_model X y DEFAULT_MODEL fs) as [s fs'].
  cbn [fst snd] in Hscore, Hload. subst s. cbn [fst snd].
  exists score, m, sc. split; [done|]. split; [done|]. split.
  - intros t p c r. by apply predict_loaded_four.
  - intros ranges t0 t1 p0 p1 c0 c1 r0 r1 Hranges.
    destruct (optimize_loaded fs' ranges m sc
                t0 t1 p0 p1 c0 c1 r0 r1 Hload Hranges)
      as (b & w & t & p & c & r & Hopt & _). by rewrite Hopt.
Qed.

(** X11.  When the regressor file is not there at the start, the service
    trains before serving: after the start the default model is loaded
    complete and Predict on four numbers succeeds, even if a scaler file was
    lying there before. *)
Theorem startup_trains_missing_model (g : rng_state) (fs : filesystem) :
  fs !! model_path_of DEFAULT_MODEL = None ->
  exists m sc,
    model_loaded (startup g fs).2 m sc
    /\ forall t p c r,
         predict (startup g fs).2 (Some [t; p; c; r])
         = PredictOk (predicted_yield_at m sc [t; p; c; r])
             (zip feature_names (feature_importances_ m)).
Proof.
  intros Hnone.
  destruct (train_model_generated g fs)
    as (X & y & score & m & sc & E & Hscore & Hload).
  unfold startup. rewrite default_model_file. unfold os_path.exists_.
  rewrite bool_decide_eq_false_2 by (rewrite Hnone; by intros [? ?]).
  cbn [negb].
  destruct (generate_sample_data g) as [[X' y'] g']. cbn [fst] in E.
  injection E as -> ->.
  destruct (train_model X y DEFAULT_MODEL fs) as [s fs'].
  cbn [fst snd] in Hload |- *.
  exists m, sc. split; [done|].
  intros t p c r. by apply predict_loaded_four.
Qed.
End service_facts.


(** ** What Optimize reads of a request *)

(** Two range entries with the same first two numbers are read alike. *)
Lemma same_first_two (o o' : option (list Q)) :
  take 2 <$> o = take 2 <$> o' ->
  (o = None /\ o' = None)
  \/ exists l l', o = Some l /\ o' = Some l'
       /\ l !! 0%nat = l' !! 0%nat /\ l !! 1%nat = l' !! 1%nat.
Proof.
  destruct o as [l|], o' as [l'|]; cbn; intros E; try done; [|by left].
  right. exists l, l'. injection E as E. do 2 (split; [done|]).
  destruct l as [|a [|b l]], l' as [|a' [|b' l']]; cbn in E;
    by simplify_eq.
Qed.

Lemma grid_axes_first_two (ranges ranges' : gmap string (list Q)) :
  (forall k, k ∈ feature_names ->
     take 2 <$> ranges !! k = take 2 <$> ranges' !! k) ->
  grid_axes ranges = grid_axes ranges'.
Proof.
  intros Hsame. unfold grid_axes, getkey, getitem.
  destruct (same_first_two _ _ (Hsame "温度" ltac:(in_feature_names)))
    as [[-> ->] | (l1 & l1' & -> & -> & E0 & E1)]; [done|].
  cbn [bind ret raise]. rewrite E0, E1.
  destruct (l1' !! 0%nat); [|done]. destruct (l1' !! 1%nat); [|done].
  cbn [bind ret raise]. clear E0 E1.
  destruct (same_first_two _ _ (Hsame "圧力" ltac:(in_feature_names)))
    as [[-> ->] | (l2 & l2' & -> & -> & E0 & E1)]; [done|].
  cbn [bind ret raise]. rewrite E0, E1.
  destruct (l2' !! 0%nat); [|done]. destruct (l2' !! 1%nat); [|done].
  cbn [bind ret raise]. clear E0 E1.
  destruct (same_first_two _ _ (Hsame "触媒量" ltac:(in_feature_names)))
    as [[-> ->] | (l3 & l3' & -> & -> & E0 & E1)]; [done|].
  cbn [bind ret raise]. rewrite E0, E1.
  destruct (l3' !! 0%nat); [|done]. destruct (l3' !! 1%nat); [|done].
  cbn [bind ret raise]. clear E0 E1.
  destruct (same_first_two _ _ (Hsame "反応時間" ltac:(in_feature_names)))
    as [[-> ->] | (l4 & l4' & -> & -> & E0 & E1)]; [done|].
  cbn [bind ret raise]. rewrite E0, E1.
  destruct (l4' !! 0%nat); [|done]. by destruct (l4' !! 1%nat).
Qed.

(** X12.  Optimize reads the first two numbers of the ranges of the four
    parameters and nothing else of the request: further numbers in a range
    and further keys do not change its answer. *)
Theorem optimize_reads_first_two (fs : filesystem)
    (ranges ranges' : gmap string (list Q)) :
  (forall k, k ∈ feature_names ->
     take 2 <$> ranges !! k = take 2 <$> ranges' !! k) ->
  optimize fs (Some ranges) = optimize fs (Some ranges').
Proof.
  intros Hsame. unfold optimize.
  by rewrite (grid_axes_first_two ranges ranges' Hsame).
Qed.

(** X13.  A range with fewer than two numbers is an [IndexError]: with a
    complete pair loaded and all four keys present, Optimize answers such a
    request through the catch-all handler, with status 500. *)
Theorem optimize_short_range (fs : filesystem) (ranges : gmap string (list Q))
    (model scaler : pyobj) :
  load_model fs DEFAULT_MODEL = (Some model, Some scaler) ->
  (forall k, k ∈ feature_names -> is_Some (ranges !! k)) ->
  (exists k l, k ∈ feature_names /\ ranges !! k = Some l /\ (length l < 2)%nat) ->
  optimize fs (Some ranges) = Failure 500 (Str IndexError).
Proof.
  intros Hload Hall (k & l & Hk & Hl & Hshort).
  unfold optimize. rewrite Hload.
  assert (Haxes : grid_axes ranges = inl IndexError); [|by rewrite Haxes].
  unfold grid_axes, getkey, getitem.
  destruct (Hall "温度" ltac:(in_feature_names)) as [l1 H1].
  destruct (Hall "圧力" ltac:(in_feature_names)) as [l2 H2].
  destruct (Hall "触媒量" ltac:(in_feature_names)) as [l3 H3].
  destruct (Hall "反応時間" ltac:(in_feature_names)) as [l4 H4].
  rewrite H1, H2, H3, H4.
  destruct l1 as [|a1 [|b1 l1]]; [done | done |].
  destruct l2 as [|a2 [|b2 l2]]; [done | done |].
  destruct l3 as [|a3 [|b3 l3]]; [done | done |].
  destruct l4 as [|a4 [|b4 l4]]; [done | done |].
  exfalso. unfold feature_names in Hk.
  repeat (apply elem_of_cons in Hk as [-> | Hk];
          [rewrite Hl in *; simplify_eq; cbn in Hshort; lia|]).
  by apply elem_of_nil in Hk.
Qed.

(** X14.  When no candidate of the grid is predicted a higher yield than the
    first one, Optimize returns the first one, whose parameters are the first
    bounds of the four ranges; a model that predicts the same yield
    everywhere is such a case. *)
Theorem optimize_flat_returns_first_bounds (fs : filesystem)
    (ranges : gmap string (list Q))
    (m : RandomForestRegressor) (sc : sklearn.StandardScaler)
    (t0 t1 p0 p1 c0 c1 r0 r1 : Q) :
  model_loaded fs m sc ->
  ranges_of ranges t0 t1 p0 p1 c0 c1 r0 r1 ->
  let X_grid := X_grid_of [np.linspace t0 t1 10; np.linspace p0 p1 10;
                           np.linspace c0 c1 10; np.linspace r0 r1 10] in
  (forall first row, X_grid !! 0%nat = Some first -> row ∈ X_grid ->
     predicted_yield_at m sc row <= predicted_yield_at m sc first) ->
  exists t p c r,
    t == t0 /\ p == p0 /\ c == c0 /\ r == r0
    /\ X_grid !! 0%nat = Some [t; p; c; r]
    /\ optimize fs (Some ranges)
       = OptimizeOk [("温度", t); ("圧力", p); ("触媒量", c); ("反応時間", r)]
           (predicted_yield_at m sc [t; p; c; r]).
Proof.
  intros Hload Hranges X_grid Hflat.
  destruct (proj1 (linspace_10_ends t0 t1)) as (t & Ht & Hteq).
  destruct (proj1 (linspace_10_ends p0 p1)) as (p & Hp & Hpeq).
  destruct (proj1 (linspace_10_ends c0 c1)) as (c & Hc & Hceq).
  destruct (proj1 (linspace_10_ends r0 r1)) as (r & Hr & Hreq).
  assert (Hfirst : X_grid !! 0%nat = Some [t; p; c; r]).
  { subst X_grid.
    apply (lookup_grid_10 _ _ _ _ 0 0 0 0); try done; apply linspace_10_length. }
  exists t, p, c, r. do 4 (split; [done|]). split; [done|].
  destruct (optimize_loaded fs ranges m sc t0 t1 p0 p1 c0 c1 r0 r1 Hload Hranges)
    as (b & w & t' & p' & c' & r' & Hopt & Hrow & Hb & Hle & Hlt).
  fold X_grid in Hrow, Hb, Hle, Hlt.
  destruct b as [|b].
  - rewrite Hfirst in Hrow. injection Hrow as <- <- <- <-.
    rewrite list_lookup_fmap, Hfirst in Hb. injection Hb as <-. exact Hopt.
  - exfalso.
    assert (H0 : predicted_yield_at m sc [t; p; c; r] < w).
    { apply (Hlt 0%nat); [lia|]. by rewrite list_lookup_fmap, Hfirst. }
    rewrite list_lookup_fmap, Hrow in Hb. injection Hb as Hw.
    assert (Hin : [t'; p'; c'; r'] ∈ X_grid)
      by (apply list_elem_of_lookup; eauto).
    pose proof (Hflat _ _ Hfirst Hin) as Hle'.
    rewrite <- Hw in H0. by apply Qlt_not_le in H0.
Qed.


(** ** Training under other names, and on ill-matched data *)

(** [load_model] reads the two files of the name and nothing else. *)
Lemma load_model_reads_two_files (fs fs' : filesystem) (model_name : string) :
  fs' !! model_path_of model_name = fs !! model_path_of model_name ->
  fs' !! scaler_path_of model_name = fs !! scaler_path_of model_name ->
  load_model fs' model_name = load_model fs model_name.
Proof.
  intros Hm Hs. unfold load_model, os_path.exists_, joblib.load.
  by rewrite Hm, Hs.
Qed.

Section other_names.
Context `{Sklearn}.

(** X15.  Training under a name whose two files are not files of the default
    model changes nothing for the requests: Predict and Optimize answer after
    it as they did before, whether that training succeeded or not. *)
Theorem other_model_keeps_answers (X : matrix) (y : list Q) (n : string)
    (fs : filesystem) (data_p : option (list Q))
    (data_o : option (gmap string (list Q))) :
  model_path_of n <> model_path_of DEFAULT_MODEL ->
  model_path_of n <> scaler_path_of DEFAULT_MODEL ->
  scaler_path_of n <> model_path_of DEFAULT_MODEL ->
  scaler_path_of n <> scaler_path_of DEFAULT_MODEL ->
  predict (train_model X y n fs).2 data_p = predict fs data_p
  /\ optimize (train_model X y n fs).2 data_o = optimize fs data_o.
Proof.
  intros Hmm Hms Hsm Hss.
  assert (Hload : load_model (train_model X y n fs).2 DEFAULT_MODEL
                  = load_model fs DEFAULT_MODEL).
  { apply load_model_reads_two_files.
    - destruct (train_model_shape X y n) as [E | (r & m & s & E)];
        rewrite E; [done|].
      cbn [snd]. unfold joblib.dump. by rewrite !lookup_insert_ne.
    - destruct (train_model_shape X y n) as [E | (r & m & s & E)];
        rewrite E; [done|].
      cbn [snd]. unfold joblib.dump. by rewrite !lookup_insert_ne. }
  unfold predict, optimize. by rewrite Hload.
Qed.

(** X16.  Features and targets of different lengths are not trained on:
    [train_model] returns [None] and stores nothing. *)
Theorem train_model_length_mismatch (X : matrix) (y : list Q)
    (model_name : string) (fs : filesystem) :
  length y <> length X ->
  train_model X y model_name fs = (None, fs).
Proof.
  intros Hlen. unfold train_model.
  destruct (sklearn.fit_transform X) as [e|[sc Xs]] eqn:Efit; [done|].
  apply fit_transform_length in Efit.
  cbn [bind ret fst snd].
  unfold sklearn.train_test_split, sklearn.n_samples. rewrite Efit.
  destruct (Nat.eqb_spec (length X) (length y)) as [E|_]; [by symmetry in E | done].
Qed.
End other_names.

(** X15 at a training under the name ["trial"]. *)
Lemma other_model_keeps_answers_witness :
  model_path_of "trial" <> model_path_of DEFAULT_MODEL /\
  scaler_path_of "trial" <> scaler_path_of DEFAULT_MODEL /\
  predict (@train_model Examples.stub_sklearn Examples.six_samples
             Examples.six_targets "trial" Examples.fs_xor).2 (Some [1; 0; 3; 4])
  = predict Examples.fs_xor (Some [1; 0; 3; 4]).
Proof.
  assert (Hmm : model_path_of "trial" <> model_path_of DEFAULT_MODEL)
    by (vm_compute; discriminate).
  assert (Hms : model_path_of "trial" <> scaler_path_of DEFAULT_MODEL)
    by (vm_compute; discriminate).
  assert (Hsm : scaler_path_of "trial" <> model_path_of DEFAULT_MODEL)
    by (vm_compute; discriminate).
  assert (Hss : scaler_path_of "trial" <> scaler_path_of DEFAULT_MODEL)
    by (vm_compute; discriminate).
  split; [exact Hmm|]. split; [exact Hss|].
  destruct (@other_model_keeps_answers Examples.stub_sklearn Examples.six_samples
              Examples.six_targets "trial" Examples.fs_xor (Some [1; 0; 3; 4])
              None Hmm Hms Hsm Hss) as [Hp _].
  exact Hp.
Defined.

(** X16 at six samples with two targets. *)
Lemma train_model_length_mismatch_witness :
  length [10; 20] <> length Examples.six_samples /\
  @train_model Examples.stub_sklearn Examples.six_samples [10; 20]
    DEFAULT_MODEL Examples.fs_xor = (None, Examples.fs_xor).
Proof.
  assert (Hlen : length [10; 20] <> length Examples.six_samples)
    by (cbn; lia).
  split; [exact Hlen|].
  exact (@train_model_length_mismatch Examples.stub_sklearn Examples.six_samples
           [10; 20] DEFAULT_MODEL Examples.fs_xor Hlen).
Defined.


(** ** The further properties at concrete inputs *)

(** X1 for a path that is not one of the two files of the default model. *)
Lemma train_model_frame_witness :
  "models/notes.txt" <> model_path_of DEFAULT_MODEL /\
  "models/notes.txt" <> scaler_path_of DEFAULT_MODEL /\
  (@train_model Examples.stub_sklearn Examples.six_samples Examples.six_targets
     DEFAULT_MODEL Examples.fs_xor).2 !! "models/notes.txt"
  = Examples.fs_xor !! "models/notes.txt".
Proof.
  assert (Hm : "models/notes.txt" <> model_path_of DEFAULT_MODEL)
    by (vm_compute; discriminate).
  assert (Hs : "models/notes.txt" <> scaler_path_of DEFAULT_MODEL)
    by (vm_compute; discriminate).
  split; [exact Hm|]. split; [exact Hs|].
  exact (@train_model_frame Examples.stub_sklearn Examples.six_samples
           Examples.six_targets DEFAULT_MODEL Examples.fs_xor _ Hm Hs).
Defined.

(** X2 at the six samples, trained into the empty storage. *)
Lemma train_model_then_load_witness :
  @SklearnLaws Examples.stub_sklearn /\
  rectangular 4 Examples.six_samples /\
  exists scaler X_scaled X_train y_train,
    @sklearn.fit_transform Examples.stub_sklearn Examples.six_samples
    = inr (scaler, X_scaled)
    /\ load_model (@train_model Examples.stub_sklearn Examples.six_samples
                     Examples.six_targets DEFAULT_MODEL ∅).2 DEFAULT_MODEL
       = (Some (PyForest (@fit_forest42 Examples.stub_sklearn X_train y_train)),
          Some (PyScaler scaler)).
Proof.
  split; [exact stub_sklearn_laws|]. split; [exact six_samples_rectangular|].
  destruct (@train_model_then_load Examples.stub_sklearn stub_sklearn_laws 4
              Examples.six_samples Examples.six_targets DEFAULT_MODEL ∅
              ltac:(lia) six_samples_rectangular ltac:(cbn; lia) eq_refl)
    as (scaler & X_scaled & X_train & X_test & y_train & y_test & score
        & Hfit & _ & _ & _ & Hl & _).
  exists scaler, X_scaled, X_train, y_train. split; [exact Hfit | exact Hl].
Defined.

Lemma six_samples_trained (model_name : string) (fs : filesystem) :
  exists score,
    @train_model Examples.stub_sklearn Examples.six_samples Examples.six_targets
      model_name fs
    = (Some score,
       (@train_model Examples.stub_sklearn Examples.six_samples
          Examples.six_targets model_name fs).2).
Proof.
  destruct (@train_model_stores Examples.stub_sklearn stub_sklearn_laws 4
              Examples.six_samples Examples.six_targets model_name fs
              ltac:(lia) six_samples_rectangular ltac:(cbn; lia) eq_refl)
    as (score & model & scaler & E & _).
  exists score. by rewrite E.
Qed.

(** X3 at the default name: a training under ["yield_model_scaler"] after
    the pair [xor_forest], [unit_scaler] was stored. *)
Lemma scaler_suffix_collision_witness :
  load_model Examples.fs_xor DEFAULT_MODEL
    = (Some (PyForest Examples.xor_forest), Some (PyScaler Examples.unit_scaler)) /\
  predict (@train_model Examples.stub_sklearn Examples.six_samples
             Examples.six_targets (DEFAULT_MODEL +:+ "_scaler") Examples.fs_xor).2
    (Some [1; 0; 3; 4])
  = Failure 500 (Str (AttributeError "transform")).
Proof.
  assert (Hold : load_model Examples.fs_xor DEFAULT_MODEL
    = (Some (PyForest Examples.xor_forest), Some (PyScaler Examples.unit_scaler)))
    by (vm_compute; reflexivity).
  split; [exact Hold|].
  destruct (six_samples_trained (DEFAULT_MODEL +:+ "_scaler") Examples.fs_xor)
    as [score Htrain].
  destruct (@scaler_suffix_collision Examples.stub_sklearn DEFAULT_MODEL
              Examples.six_samples Examples.six_targets Examples.fs_xor _ _ _
              score [1; 0; 3; 4] Hold Htrain)
    as (_ & model & _ & Hpredict).
  exact (Hpredict eq_refl).
Defined.

(** X4 at a storage whose regressor file is unreadable. *)
Lemma unreadable_artifact_not_found_witness :
  Examples.fs_unreadable !! model_path_of DEFAULT_MODEL = Some Corrupt /\
  load_model Examples.fs_unreadable DEFAULT_MODEL = (None, None).
Proof.
  assert (Hc : Examples.fs_unreadable !! model_path_of DEFAULT_MODEL = Some Corrupt)
    by (vm_compute; reflexivity).
  split; [exact Hc|].
  destruct (unreadable_artifact_not_found Examples.fs_unreadable DEFAULT_MODEL
              [] ∅ (or_introl Hc)) as [Hload _].
  exact Hload.
Defined.

(** X6 with the congruential generator. *)
Lemma generated_yield_unclamped_witness :
  (forall s, 0 <= (@random_sample Examples.lcg s).1 < 1) /\
  exists X Y,
    (@generate_sample_data Examples.lcg 0%Z).1 = (X, Y)
    /\ forall i row y, X !! i = Some row -> Y !! i = Some y -> 20.42 <= y <= 92.8.
Proof.
  split; [exact lcg_uniform|].
  destruct (@generated_yield_unclamped Examples.lcg lcg_uniform 0%Z)
    as (X & Y & E & Hall).
  exists X, Y. split; [exact E|].
  intros i row y Hrow Hy. exact (proj2 (Hall i row y Hrow Hy)).
Defined.

(** X7 at the stored pair [xor_forest], [unit_scaler]. *)
Lemma optimize_agrees_with_predict_witness :
  model_loaded Examples.fs_xor Examples.xor_forest Examples.unit_scaler /\
  ranges_of Examples.ranges_0_9 0 9 0 9 0 9 0 9 /\
  exists t p c r w,
    optimize Examples.fs_xor (Some Examples.ranges_0_9)
      = OptimizeOk [("温度", t); ("圧力", p); ("触媒量", c); ("反応時間", r)] w
    /\ predict Examples.fs_xor (Some [t; p; c; r])
       = PredictOk w (zip feature_names (feature_importances_ Examples.xor_forest)).
Proof.
  split; [exact example_model_loaded|].
  split; [exact (example_ranges_of 0 9 0 9 0 9 0 9)|].
  exact (optimize_agrees_with_predict Examples.fs_xor Examples.ranges_0_9
           Examples.xor_forest Examples.unit_scaler 0 9 0 9 0 9 0 9
           example_model_loaded (example_ranges_of 0 9 0 9 0 9 0 9)).
Defined.

(** X9 at a storage with an unreadable regressor file and no scaler file. *)
Lemma startup_keeps_existing_regressor_witness :
  is_Some (Examples.fs_unreadable !! model_path_of DEFAULT_MODEL) /\
  @startup Examples.stub_sklearn Examples.lcg 0%Z Examples.fs_unreadable
  = (0%Z, Examples.fs_unreadable).
Proof.
  assert (Hsome : is_Some (Examples.fs_unreadable !! model_path_of DEFAULT_MODEL))
    by (exists Corrupt; vm_compute; reflexivity).
  split; [exact Hsome|].
  destruct (@startup_keeps_existing_regressor Examples.stub_sklearn Examples.lcg
              0%Z Examples.fs_unreadable [] ∅ Hsome) as [Hstart _].
  exact Hstart.
Defined.

(** X10 with the small instances, on the empty storage. *)
Lemma train_then_serve_witness :
  @SklearnLaws Examples.stub_sklearn /\
  exists score,
    (@train Examples.stub_sklearn Examples.lcg 0%Z ∅).1 = TrainOk score
    /\ success (predict (@train Examples.stub_sklearn Examples.lcg 0%Z ∅).2.2
                  (Some [100; 5; 1; 12])) = true.
Proof.
  split; [exact stub_sklearn_laws|].
  destruct (@train_then_serve Examples.stub_sklearn Examples.lcg
              stub_sklearn_laws 0%Z ∅)
    as (score & m & sc & Hscore & _ & Hpredict & _).
  exists score. split; [exact Hscore|].
  rewrite (Hpredict 100 5 1 12). reflexivity.
Defined.

(** X11 with the small instances, on the empty storage. *)
Lemma startup_trains_missing_model_witness :
  @SklearnLaws Examples.stub_sklearn /\
  (∅ : filesystem) !! model_path_of DEFAULT_MODEL = None /\
  exists m sc,
    model_loaded (@startup Examples.stub_sklearn Examples.lcg 0%Z ∅).2 m sc.
Proof.
  split; [exact stub_sklearn_laws|]. split; [exact (lookup_empty _)|].
  destruct (@startup_trains_missing_model Examples.stub_sklearn Examples.lcg
              stub_sklearn_laws 0%Z ∅ (lookup_empty _)) as (m & sc & Hload & _).
  exists m, sc. exact Hload.
Defined.

Lemma example_same_first_two (k : string) :
  k ∈ feature_names ->
  take 2 <$> Examples.request [0; 9; 5] [0; 9] [0; 9; 7; 8] [0; 9] !! k
  = take 2 <$> Examples.ranges_0_9 !! k.
Proof.
  unfold feature_names. intros Hk.
  repeat (apply elem_of_cons in Hk as [-> | Hk]; [vm_compute; reflexivity|]).
  by apply elem_of_nil in Hk.
Qed.

(** X12 at a request with further numbers in two of its ranges. *)
Lemma optimize_reads_first_two_witness :
  (forall k, k ∈ feature_names ->
     take 2 <$> Examples.request [0; 9; 5] [0; 9] [0; 9; 7; 8] [0; 9] !! k
     = take 2 <$> Examples.ranges_0_9 !! k) /\
  optimize Examples.fs_xor (Some (Examples.request [0; 9; 5] [0; 9] [0; 9; 7; 8] [0; 9]))
  = optimize Examples.fs_xor (Some Examples.ranges_0_9).
Proof.
  split; [exact example_same_first_two|].
  exact (optimize_reads_first_two Examples.fs_xor _ _ example_same_first_two).
Defined.

Lemma example_all_keys (t p c r : list Q) (k : string) :
  k ∈ feature_names -> is_Some (Examples.request t p c r !! k).
Proof.
  unfold feature_names. intros Hk.
  repeat (apply elem_of_cons in Hk as [-> | Hk]; [eexists; vm_compute; reflexivity|]).
  by apply elem_of_nil in Hk.
Qed.

(** X13 at a request whose temperature range is the single number 9. *)
Lemma optimize_short_range_witness :
  load_model Examples.fs_xor DEFAULT_MODEL
    = (Some (PyForest Examples.xor_forest), Some (PyScaler Examples.unit_scaler)) /\
  optimize Examples.fs_xor (Some (Examples.request [9] [0; 9] [0; 9] [0; 9]))
  = Failure 500 (Str IndexError).
Proof.
  assert (Hold : load_model Examples.fs_xor DEFAULT_MODEL
    = (Some (PyForest Examples.xor_forest), Some (PyScaler Examples.unit_scaler)))
    by (vm_compute; reflexivity).
  split; [exact Hold|].
  apply (optimize_short_range Examples.fs_xor _ _ _ Hold
           (example_all_keys [9] [0; 9] [0; 9] [0; 9])).
  exists "温度", [9]. split; [in_feature_names|].
  split; [vm_compute; reflexivity | cbn; lia].
Defined.

Lemma example_constant_loaded :
  model_loaded Examples.fs_constant Examples.constant_forest Examples.centred_scaler.
Proof. split; [vm_compute; reflexivity | constructor; reflexivity]. Qed.

(** X14 at a stored forest of one leaf, which predicts 5 everywhere. *)
Lemma optimize_flat_returns_first_bounds_witness :
  model_loaded Examples.fs_constant Examples.constant_forest Examples.centred_scaler /\
  ranges_of Examples.ranges_0_9 0 9 0 9 0 9 0 9 /\
  exists t p c r,
    t == 0 /\ p == 0 /\ c == 0 /\ r == 0
    /\ optimize Examples.fs_constant (Some Examples.ranges_0_9)
       = OptimizeOk [("温度", t); ("圧力", p); ("触媒量", c); ("反応時間", r)]
           (predicted_yield_at Examples.constant_forest Examples.centred_scaler
              [t; p; c; r]).
Proof.
  split; [exact example_constant_loaded|].
  split; [exact (example_ranges_of 0 9 0 9 0 9 0 9)|].
  destruct (optimize_flat_returns_first_bounds Examples.fs_constant
              Examples.ranges_0_9 Examples.constant_forest Examples.centred_scaler
              0 9 0 9 0 9 0 9 example_constant_loaded
              (example_ranges_of 0 9 0 9 0 9 0 9))
    as (t & p & c & r & Ht & Hp & Hc & Hr & _ & Hopt).
  - intros first row _ _. apply Qle_refl.
  - exists t, p, c, r. repeat split; assumption.
Defined.
